(** * Action-plugin adapters of agent-runtime: a shallow embedding

    The two scripts [ext/plugins/resend/run.py] (email) and
    [ext/plugins/tinyfish/run.py] (web automation) read one JSON document
    from standard input, build one HTTP POST, and reduce the provider's
    answer to one message.  This development embeds both scripts and proves
    properties of them.

    Conventions of the embedding.
    - A Python [str] is a [string]; a character stands for one code point
      and the alphabet is U+0000..U+00FF.  [isspace] and [lower] are
      Python's [str.isspace] and [str.lower] on that alphabet.
    - A Python value obtained from [json.loads] is a [json]; [None] is
      [JNull]; a [dict] is an association list in insertion order that is
      read by first match and written by replace-or-append.
    - What the scripts take from the Python library and the embedding does
      not compute (the JSON decoder, [repr] of floats and containers,
      UTF-8 decoding, [float()], URL checking of [urllib.request.Request])
      is a field of the class [Platform]; theorems hold for every platform.
    - The outside of a run is a [world]: the text read from standard
      input, the environment, and what the provider does with a call.  The
      effects of a run are a [trace]: what was written on either stream,
      the calls issued, the response bytes read.
    - An exception that leaves [main] ends the process with exit code 1;
      the interpreter's report of it is not part of [err], which holds
      what the script itself wrote. *)

From Stdlib Require Import String Ascii List ZArith NArith Bool Lia Arith.
From Stdlib Require Import DecimalString.
Import ListNotations.
Local Open Scope list_scope.
Local Open Scope string_scope.

(* ===================================================================== *)
(** ** Python strings *)
(* ===================================================================== *)

Module PyStr.

(** [str.isspace] on one character: TAB..CR, FS..US, SPACE, NEL, NBSP. *)
Definition isspace (c : ascii) : bool :=
  let n := N_of_ascii c in
  (((9 <=? n) && (n <=? 13)) || ((28 <=? n) && (n <=? 32))
   || (n =? 133) || (n =? 160))%N.

(** [s.lstrip()] *)
Fixpoint lstrip (s : string) : string :=
  match s with
  | EmptyString => EmptyString
  | String c s' => if isspace c then lstrip s' else s
  end.

(** [s.rstrip()] *)
Fixpoint rstrip (s : string) : string :=
  match s with
  | EmptyString => EmptyString
  | String c s' =>
      match rstrip s' with
      | EmptyString => if isspace c then EmptyString else String c EmptyString
      | r => String c r
      end
  end.

(** [s.strip()] *)
Definition strip (s : string) : string := rstrip (lstrip s).

(** [s.rstrip(ch)] for a one-character argument. *)
Fixpoint rstrip_char (ch : ascii) (s : string) : string :=
  match s with
  | EmptyString => EmptyString
  | String c s' =>
      match rstrip_char ch s' with
      | EmptyString => if Ascii.eqb c ch then EmptyString else String c EmptyString
      | r => String c r
      end
  end.

(** Does [s] start with a character that is not whitespace? *)
Definition starts_word (s : string) : bool :=
  match s with
  | EmptyString => false
  | String c _ => negb (isspace c)
  end.

(** [s.split()]: the maximal runs of non-whitespace characters. *)
Fixpoint split (s : string) : list string :=
  match s with
  | EmptyString => []
  | String c s' =>
      if isspace c then split s'
      else if starts_word s' then
        match split s' with
        | w :: ws => String c w :: ws
        | [] => [String c EmptyString]
        end
      else String c EmptyString :: split s'
  end.

(** [s.split(sep)] for a one-character separator: empty pieces are kept. *)
Fixpoint split_on (sep : ascii) (s : string) : list string :=
  match s with
  | EmptyString => [EmptyString]
  | String c s' =>
      if Ascii.eqb c sep then EmptyString :: split_on sep s'
      else
        match split_on sep s' with
        | w :: ws => String c w :: ws
        | [] => [String c EmptyString]
        end
  end.

(** [sep.join(parts)] *)
Fixpoint join (sep : string) (parts : list string) : string :=
  match parts with
  | [] => EmptyString
  | [w] => w
  | w :: ws => w ++ sep ++ join sep ws
  end.

(** [str.lower] on one character: A..Z and the capital letters of
    U+00C0..U+00DE (all but the multiplication sign U+00D7). *)
Definition lower_char (c : ascii) : ascii :=
  let n := N_of_ascii c in
  if (((65 <=? n) && (n <=? 90))
      || ((192 <=? n) && (n <=? 222) && negb (n =? 215)))%N
  then ascii_of_N (n + 32) else c.

(** [s.lower()] *)
Fixpoint lower (s : string) : string :=
  match s with
  | EmptyString => EmptyString
  | String c s' => String (lower_char c) (lower s')
  end.

(** [needle in hay] *)
Fixpoint contains (needle hay : string) : bool :=
  String.prefix needle hay ||
  match hay with
  | EmptyString => false
  | String _ hay' => contains needle hay'
  end.

(** [s[:n]] *)
Definition take (n : nat) (s : string) : string := String.substring 0 n s.

(** [str(n)] for an integer. *)
Definition str_of_Z (z : Z) : string := NilZero.string_of_int (Z.to_int z).

(** The line feed and the double quote. *)
Definition LF : string := String (ascii_of_nat 10) EmptyString.
Definition DQ : string := String (ascii_of_nat 34) EmptyString.

(** A literal written with single quotes where the text has double
    quotes. *)
Fixpoint dq (s : string) : string :=
  match s with
  | EmptyString => EmptyString
  | String c s' =>
      String (if (N_of_ascii c =? 39)%N then ascii_of_nat 34 else c) (dq s')
  end.

(** Truth value of a string: [bool(s)]. *)
Definition nonempty (s : string) : bool :=
  match s with EmptyString => false | _ => true end.

(** [a or b] on strings. *)
Definition or_else (a b : string) : string := if nonempty a then a else b.

End PyStr.

(* ===================================================================== *)
(** ** Python values, dictionaries and the library interface *)
(* ===================================================================== *)

(** The values [json.loads] builds.  A float keeps the literal it was read
    from; what Python computes from the binary64 is asked of the platform. *)
#[local] Unset Elimination Schemes.
Inductive json : Type :=
| JNull
| JBool (b : bool)
| JInt (z : Z)
| JFloat (literal : string)
| JStr (s : string)
| JList (items : list json)
| JDict (entries : list (string * json)).
#[local] Set Elimination Schemes.

Definition dict := list (string * json).

Module PyDict.

(** First entry of the key, if any. *)
Fixpoint find (d : dict) (k : string) : option json :=
  match d with
  | [] => None
  | (k', v) :: d' => if String.eqb k' k then Some v else find d' k
  end.

(** [k in d] *)
Definition mem (d : dict) (k : string) : bool :=
  match find d k with Some _ => true | None => false end.

(** [d.get(k)]: [None] when the key is absent. *)
Definition get (d : dict) (k : string) : json :=
  match find d k with Some v => v | None => JNull end.

(** [d[k] = v]: replaces in place, or appends. *)
Fixpoint set (d : dict) (k : string) (v : json) : dict :=
  match d with
  | [] => [(k, v)]
  | (k', v') :: d' =>
      if String.eqb k' k then (k', v) :: d' else (k', v') :: set d' k v
  end.

End PyDict.

Definition is_dict (v : json) : bool :=
  match v with JDict _ => true | _ => false end.

Definition is_none (v : json) : bool :=
  match v with JNull => true | _ => false end.

(** [os.environ.get(name)] as a Python value. *)
Definition of_env (v : option string) : json :=
  match v with Some s => JStr s | None => JNull end.

(** The Python library functions the scripts call and the embedding does
    not compute. *)
Class Platform : Type := {
  (** [json.loads(s)]: the value, or the text of the [JSONDecodeError]. *)
  json_loads : string -> json + string;
  (** [repr(x)] of the float read from a literal. *)
  float_repr : string -> string;
  (** [bool(x)] of the float read from a literal. *)
  float_truthy : string -> bool;
  (** [json.dumps(x)] of the float read from a literal. *)
  float_dumps : string -> string;
  (** [str(v)] of a list or a dict. *)
  container_repr : json -> string;
  (** [b.decode("utf-8", errors="replace")] *)
  utf8_decode : string -> string;
  (** [float(s)]: [Some msg] when it raises [ValueError(msg)]. *)
  float_error : string -> option string;
  (** [urllib.request.Request(url, ...)]: [Some msg] when the constructor
      raises [ValueError(msg)] (a URL without a scheme). *)
  request_error : string -> option string
}.

Section Values.
Context {P : Platform}.

(** [bool(v)] *)
Definition truthy (v : json) : bool :=
  match v with
  | JNull => false
  | JBool b => b
  | JInt z => negb (Z.eqb z 0)
  | JFloat x => float_truthy x
  | JStr s => PyStr.nonempty s
  | JList l => match l with [] => false | _ => true end
  | JDict d => match d with [] => false | _ => true end
  end.

(** [a or b] *)
Definition py_or (a b : json) : json := if truthy a then a else b.

(** [str(v)] *)
Definition py_str (v : json) : string :=
  match v with
  | JNull => "None"
  | JBool true => "True"
  | JBool false => "False"
  | JInt z => PyStr.str_of_Z z
  | JFloat x => float_repr x
  | JStr s => s
  | JList _ | JDict _ => container_repr v
  end.

End Values.

(* ===================================================================== *)
(** ** Exceptions, the world and the effects of a run *)
(* ===================================================================== *)

Inductive exn : Type :=
| JSONDecodeError (msg : string)
| AttributeError (msg : string)
| ValueError (msg : string)
| HTTPError (code : Z) (body : string)
| OtherError (msg : string).

(** [str(err)] for the exceptions the scripts format into a message. *)
Definition exn_text (e : exn) : string :=
  match e with
  | JSONDecodeError msg | AttributeError msg | ValueError msg
  | OtherError msg => msg
  | HTTPError code _ => "HTTP Error " ++ PyStr.str_of_Z code
  end.

(** [urllib.request.Request(url, data=..., headers=..., method=...)] *)
Record request : Type := {
  url : string;
  data : string;
  headers : list (string * string);
  method : string
}.

(** One call [urlopen(req, timeout=...)]. *)
Record http_call : Type := {
  target : request;
  timeout : string
}.

(** What [urlopen] does with a call: a response object with a status and a
    body of bytes, an [HTTPError] with a code and a body of bytes, or any
    other exception (connection, DNS, TLS, timeout). *)
Inductive reply : Type :=
| Responds (status : Z) (body : string)
| RaisesHTTPError (code : Z) (body : string)
| RaisesOther (msg : string).

Record world : Type := {
  stdin : string;
  environ : string -> option string;
  provider : http_call -> reply
}.

Record trace : Type := {
  stdout : string;
  stderr : string;
  sent : list http_call;
  consumed : nat
}.

Definition quiet : trace :=
  {| stdout := ""; stderr := ""; sent := []; consumed := 0 |}.

(** Pure code that may raise. *)
Definition E (A : Type) : Type := (A + exn)%type.

Definition bindE {A B} (m : E A) (k : A -> E B) : E B :=
  match m with inl a => k a | inr e => inr e end.

(** Code that writes, talks to the provider and may raise. *)
Definition M (A : Type) : Type := trace -> trace * (A + exn).

Definition ret {A} (a : A) : M A := fun t => (t, inl a).

Definition raise {A} (e : exn) : M A := fun t => (t, inr e).

Definition bind {A B} (m : M A) (k : A -> M B) : M B :=
  fun t =>
    match m t with
    | (t', inl a) => k a t'
    | (t', inr e) => (t', inr e)
    end.

Definition lift {A} (r : E A) : M A :=
  match r with inl a => ret a | inr e => raise e end.

(** [try: a = body / except ... as e: handler(e) / else: k(a)] where every
    handler leaves the function; exceptions of [k] are not caught. *)
Definition try_except {A B} (body : M A) (handler : exn -> M B)
    (k : A -> M B) : M B :=
  fun t =>
    match body t with
    | (t', inl a) => k a t'
    | (t', inr e) => handler e t'
    end.

Declare Scope py_scope.
Delimit Scope py_scope with py.
Notation "x <- m ;; k" := (bind m (fun x => k))
  (at level 61, m at next level, right associativity) : py_scope.
Notation "m ;;; k" := (bind m (fun _ => k))
  (at level 61, right associativity) : py_scope.
Notation "x <~ m ;; k" := (bindE m (fun x => k))
  (at level 61, m at next level, right associativity) : py_scope.
Local Open Scope py_scope.

(** [sys.stdout.write(s)] and [sys.stderr.write(s)] *)
Definition write_stdout (s : string) : M unit :=
  fun t => ({| stdout := stdout t ++ s; stderr := stderr t;
               sent := sent t; consumed := consumed t |}, inl tt).

Definition write_stderr (s : string) : M unit :=
  fun t => ({| stdout := stdout t; stderr := stderr t ++ s;
               sent := sent t; consumed := consumed t |}, inl tt).

(** [print(s)] *)
Definition print (s : string) : M unit := write_stdout (s ++ PyStr.LF).

(** [urllib.request.urlopen(req, timeout=...)]: the request goes out, then
    the provider decides. *)
Definition urlopen (w : world) (req : request) (seconds : string)
    : M (Z * string) :=
  fun t =>
    let call := {| target := req; timeout := seconds |} in
    let t' := {| stdout := stdout t; stderr := stderr t;
                 sent := sent t ++ [call]; consumed := consumed t |} in
    match provider w call with
    | Responds status body => (t', inl (status, body))
    | RaisesHTTPError code body => (t', inr (HTTPError code body))
    | RaisesOther msg => (t', inr (OtherError msg))
    end.

(** [stream.read()] ([limit = None]) and [stream.read(n)]. *)
Definition read (limit : option nat) (body : string) : M string :=
  fun t =>
    let chunk := match limit with
                 | None => body
                 | Some n => PyStr.take n body
                 end in
    ({| stdout := stdout t; stderr := stderr t; sent := sent t;
        consumed := consumed t + String.length chunk |}, inl chunk).

(** The process: [raise SystemExit(main())].  An exception that leaves
    [main] ends the process with code 1 after the interpreter has reported
    it on standard error; [uncaught] records it, and [err] holds what the
    script itself wrote. *)
Record process : Type := {
  out : string;
  err : string;
  exit_code : Z;
  requests : list http_call;
  bytes_read : nat;
  uncaught : option exn
}.

Definition process_of (t : trace) (r : Z + exn) : process :=
  {| out := stdout t; err := stderr t;
     exit_code := match r with inl code => code | inr _ => 1%Z end;
     requests := sent t; bytes_read := consumed t;
     uncaught := match r with inl _ => None | inr e => Some e end |}.

Definition run_process (main : M Z) : process :=
  process_of (fst (main quiet)) (snd (main quiet)).

(* ===================================================================== *)
(** ** Library calls that raise, and [json.dumps] *)
(* ===================================================================== *)

Section Library.
Context {P : Platform}.

(** [json.loads(s)], raising [JSONDecodeError]. *)
Definition loads (s : string) : E json :=
  match json_loads s with
  | inl v => inl v
  | inr msg => inr (JSONDecodeError msg)
  end.

(** [v.get(k)] on a value that was not checked to be a dict. *)
Definition py_get (v : json) (k : string) : E json :=
  match v with
  | JDict d => inl (PyDict.get d k)
  | _ => inr (AttributeError "object has no attribute 'get'")
  end.

(** [float(s)] *)
Definition py_float (s : string) : E string :=
  match float_error s with
  | Some msg => inr (ValueError msg)
  | None => inl s
  end.

(** [urllib.request.Request(url, data=data, headers=headers, method="POST")] *)
Definition Request (u d : string) (h : list (string * string)) : E request :=
  match request_error u with
  | Some msg => inr (ValueError msg)
  | None => inl {| url := u; data := d; headers := h; method := "POST" |}
  end.

Definition hex_digit (n : N) : ascii :=
  ascii_of_N (if (n <? 10)%N then 48 + n else 87 + n).

(** One character of a JSON string as [json.dumps] writes it
    ([ensure_ascii=True]). *)
Definition escape_char (c : ascii) : string :=
  let n := N_of_ascii c in
  if (n =? 34)%N then "\" ++ PyStr.DQ
  else if (n =? 92)%N then "\\"
  else if (n =? 10)%N then "\n"
  else if (n =? 13)%N then "\r"
  else if (n =? 9)%N then "\t"
  else if (n =? 8)%N then "\b"
  else if (n =? 12)%N then "\f"
  else if ((32 <=? n) && (n <=? 126))%N then String c EmptyString
  else "\u00" ++ String (hex_digit (n / 16))
                   (String (hex_digit (n mod 16)) EmptyString).

Fixpoint escape (s : string) : string :=
  match s with
  | EmptyString => EmptyString
  | String c s' => escape_char c ++ escape s'
  end.

Definition quote (s : string) : string := PyStr.DQ ++ escape s ++ PyStr.DQ.

(** [json.dumps(v)] with the default separators. *)
Fixpoint dumps (v : json) : string :=
  match v with
  | JNull => "null"
  | JBool true => "true"
  | JBool false => "false"
  | JInt z => PyStr.str_of_Z z
  | JFloat x => float_dumps x
  | JStr s => quote s
  | JList items => "[" ++ PyStr.join ", " (map dumps items) ++ "]"
  | JDict entries =>
      "{" ++ PyStr.join ", "
               (map (fun kv => (quote (fst kv) ++ ": " ++ dumps (snd kv))%string)
                    entries)
          ++ "}"
  end.

End Library.

(* ===================================================================== *)
(** ** The email adapter: [ext/plugins/resend/run.py] *)
(* ===================================================================== *)

Module Resend.
Section Script.
Context {P : Platform}.

(** [fail] (lines 9-11) *)
Definition fail (message : string) : M Z :=
  write_stderr (PyStr.strip message ++ PyStr.LF) ;;; ret 1%Z.

(** [str_or_empty] (lines 14-17) *)
Definition str_or_empty (value : json) : string :=
  if is_none value then "" else PyStr.strip (py_str value).

(** [normalize_recipients] (lines 20-27) *)
Definition normalize_recipients (value : json) : list string :=
  match value with
  | JNull => []
  | JStr s =>
      map PyStr.strip
        (filter (fun item => PyStr.nonempty (PyStr.strip item))
           (PyStr.split_on "," s))
  | JList items =>
      map str_or_empty
        (filter (fun item => PyStr.nonempty (str_or_empty item)) items)
  | _ => []
  end.

(** The loop of [map_lookup] over the keys. *)
Fixpoint lookup_keys (values : dict) (keys : list string) : json :=
  match keys with
  | [] => JNull
  | key :: rest =>
      match PyDict.find values key with
      | Some v => v
      | None => lookup_keys values rest
      end
  end.

(** [map_lookup] (lines 30-36) *)
Definition map_lookup (values : json) (keys : list string) : json :=
  match values with
  | JDict d => lookup_keys d keys
  | _ => JNull
  end.

(** The loop of [parse_message] over the candidate keys (lines 47-54). *)
Fixpoint probe (decoded : dict) (keys : list string) : option string :=
  match keys with
  | [] => None
  | key :: rest =>
      match PyDict.get decoded key with
      | JStr value =>
          if PyStr.nonempty (PyStr.strip value) then Some (PyStr.strip value)
          else probe decoded rest
      | JDict value =>
          match PyDict.get value "message" with
          | JStr nested =>
              if PyStr.nonempty (PyStr.strip nested)
              then Some (PyStr.strip nested)
              else probe decoded rest
          | _ => probe decoded rest
          end
      | _ => probe decoded rest
      end
  end.

(** [parse_message] (lines 39-55) *)
Definition parse_message (response_body : string) : E string :=
  if negb (PyStr.nonempty response_body) then inl ""
  else
    match loads response_body with
    | inr (JSONDecodeError _) => inl (PyStr.strip response_body)
    | inr e => inr e
    | inl (JDict decoded) =>
        match probe decoded ["message"; "error"; "detail"] with
        | Some found => inl found
        | None => inl (PyStr.strip response_body)
        end
    | inl _ => inl (PyStr.strip response_body)
    end.

Definition is_nil {A} (l : list A) : bool :=
  match l with [] => true | _ => false end.

Definition strings (l : list string) : json := JList (map JStr l).

(** [if value: body[key] = value] for a string. *)
Definition set_text (body : dict) (key value : string) : dict :=
  if PyStr.nonempty value then PyDict.set body key (JStr value) else body.

(** [if values: body[key] = values] for a list of strings. *)
Definition set_list (body : dict) (key : string) (values : list string) : dict :=
  if is_nil values then body else PyDict.set body key (strings values).

(** The request body (lines 97-128). *)
Definition build_body (payload : dict) (from_value : string)
    (to_values : list string) (subject text html : string) : dict :=
  let cc_values := normalize_recipients (PyDict.get payload "cc") in
  let bcc_values := normalize_recipients (PyDict.get payload "bcc") in
  let body := [("from", JStr from_value); ("to", strings to_values);
               ("subject", JStr subject)] in
  let body := set_text body "text" text in
  let body := set_text body "html" html in
  let body := set_list body "cc" cc_values in
  let body := set_list body "bcc" bcc_values in
  let reply_to := PyDict.get payload "reply_to" in
  let body :=
    match reply_to with
    | JStr s =>
        if PyStr.nonempty (PyStr.strip s)
        then PyDict.set body "reply_to" (JStr (PyStr.strip s))
        else body
    | JList _ => set_list body "reply_to" (normalize_recipients reply_to)
    | _ => body
    end in
  let tags := PyDict.get payload "tags" in
  let body :=
    match tags with
    | JList _ => PyDict.set body "tags" tags
    | _ => body
    end in
  let headers := PyDict.get payload "headers" in
  match headers with
  | JDict _ => PyDict.set body "headers" headers
  | _ => body
  end.

(** The identifier of the sent email (lines 164-171). *)
Definition response_id (response_text : string) : string :=
  if PyStr.nonempty response_text then
    match loads response_text with
    | inl (JDict parsed) => str_or_empty (PyDict.get parsed "id")
    | _ => ""
    end
  else "".

(** The success message (lines 173-176). *)
Definition sent_message (to_values : list string) (email_id : string) : string :=
  let recipients := PyStr.join ", " to_values in
  let message := "resend email sent to " ++ recipients in
  if PyStr.nonempty email_id then message ++ " (id: " ++ email_id ++ ")"
  else message.

Definition plugin_id : string := "external_resend_email".

Definition getenv (w : world) (name : string) : string :=
  str_or_empty (of_env (environ w name)).

(** [main] (lines 58-178) *)
Definition main (w : world) : M Z :=
  let raw := stdin w in
  if negb (PyStr.nonempty (PyStr.strip raw)) then
    fail "resend plugin expected request JSON on stdin"
  else
  try_except (lift (loads raw))
    (fun e =>
       match e with
       | JSONDecodeError msg => fail ("resend plugin invalid stdin JSON: " ++ msg)
       | _ => raise e
       end)
    (fun request =>
  approval <- lift (py_get request "action_approval") ;;
  if negb (is_dict approval) then
    fail "resend plugin missing action_approval object"
  else
  match py_or (map_lookup approval ["payload"; "Payload"]) (JDict []) with
  | JDict payload =>
  let action_target :=
    str_or_empty (map_lookup approval ["action_target"; "ActionTarget"]) in
  let action_summary :=
    str_or_empty (map_lookup approval ["action_summary"; "ActionSummary"]) in
  let to_values := normalize_recipients (PyDict.get payload "to") in
  let to_values :=
    if is_nil to_values && PyStr.nonempty action_target
    then normalize_recipients (JStr action_target) else to_values in
  if is_nil to_values then
    fail "resend_email requires payload.to or action target recipient email"
  else
  let from_value :=
    PyStr.or_else (str_or_empty (PyDict.get payload "from"))
      (getenv w "RESEND_FROM") in
  if negb (PyStr.nonempty from_value) then
    fail "resend_email requires payload.from or RESEND_FROM env var"
  else
  let subject :=
    PyStr.or_else (str_or_empty (PyDict.get payload "subject"))
      (PyStr.or_else action_summary "Message from agent-runtime") in
  let text := str_or_empty (PyDict.get payload "text") in
  let html := str_or_empty (PyDict.get payload "html") in
  let text :=
    if negb (PyStr.nonempty text) && negb (PyStr.nonempty html)
    then action_summary else text in
  if negb (PyStr.nonempty text) && negb (PyStr.nonempty html) then
    fail "resend_email requires payload.text or payload.html (or non-empty summary)"
  else
  let body := build_body payload from_value to_values subject text html in
  let api_key := getenv w "RESEND_API_KEY" in
  if negb (PyStr.nonempty api_key) then
    fail "resend plugin missing RESEND_API_KEY"
  else
  let base :=
    PyStr.or_else (getenv w "RESEND_API_BASE") "https://api.resend.com" in
  let endpoint := PyStr.rstrip_char "/" base ++ "/emails" in
  timeout_sec <-
    lift (py_float (PyStr.or_else (getenv w "RESEND_TIMEOUT_SEC") "30")) ;;
  let encoded := dumps (JDict body) in
  req <- lift (Request endpoint encoded
                 [("Authorization", "Bearer " ++ api_key);
                  ("Content-Type", "application/json");
                  ("User-Agent", "curl/8.7.1")]) ;;
  try_except
    (response <- urlopen w req timeout_sec ;;
     bytes <- read None (snd response) ;;
     ret (utf8_decode bytes, fst response))
    (fun e =>
       match e with
       | HTTPError code stream =>
           bytes <- read None stream ;;
           let error_body := utf8_decode bytes in
           parsed <- lift (parse_message error_body) ;;
           let message := PyStr.or_else parsed ("HTTP " ++ PyStr.str_of_Z code) in
           fail ("resend request failed: status=" ++ PyStr.str_of_Z code
                 ++ " message=" ++ message)
       | _ => fail ("resend request failed: " ++ exn_text e)
       end)
    (fun answer =>
       let response_text := fst answer in
       let status_code := snd answer in
       if ((status_code <? 200) || (status_code >=? 300))%Z then
         fail ("resend request failed: unexpected status "
               ++ PyStr.str_of_Z status_code)
       else
         let email_id := response_id response_text in
         let message := sent_message to_values email_id in
         print (dumps (JDict [("message", JStr message);
                              ("plugin", JStr plugin_id)])) ;;;
         ret 0%Z)
  | _ => fail "resend plugin payload must be a JSON object"
  end).

(** One run of the script. *)
Definition run (w : world) : process := run_process (main w).

End Script.
End Resend.

(* ===================================================================== *)
(** ** The automation adapter: [ext/plugins/tinyfish/run.py] *)
(* ===================================================================== *)

Module Tinyfish.

(** [MAX_BODY_BYTES] (line 9) *)
Definition MAX_BODY_BYTES : nat := 128 * 1024.

Section Script.
Context {P : Platform}.

(** [fail] (lines 12-14) *)
Definition fail (message : string) : M Z :=
  write_stderr (PyStr.strip message ++ PyStr.LF) ;;; ret 1%Z.

(** [trim] (lines 17-20) *)
Definition trim (value : json) : string :=
  if is_none value then "" else PyStr.strip (py_str value).

(** [compact] (lines 23-27) *)
Definition compact (value : string) : string :=
  let text := PyStr.join " " (PyStr.split (PyStr.strip value)) in
  if Nat.leb (String.length text) 1200 then text
  else PyStr.take 1200 text ++ "...".

(** [map_string] (lines 30-33) *)
Definition map_string (values : json) (key : string) : string :=
  match values with
  | JDict d => trim (PyDict.get d key)
  | _ => ""
  end.

(** [nested_map_string] (lines 36-42) *)
Definition nested_map_string (values : json) (parent child : string) : string :=
  match values with
  | JDict d =>
      match PyDict.get d parent with
      | JDict nested => map_string (JDict nested) child
      | _ => ""
      end
  | _ => ""
  end.

(** [first_non_empty] (lines 45-50) *)
Fixpoint first_non_empty (values : list string) : string :=
  match values with
  | [] => ""
  | value :: rest =>
      let value := trim (JStr value) in
      if PyStr.nonempty value then value else first_non_empty rest
  end.

(** The loop of [map_lookup] over the keys. *)
Fixpoint lookup_keys (values : dict) (keys : list string) : json :=
  match keys with
  | [] => JNull
  | key :: rest =>
      match PyDict.find values key with
      | Some v => v
      | None => lookup_keys values rest
      end
  end.

(** [map_lookup] (lines 53-59) *)
Definition map_lookup (values : json) (keys : list string) : json :=
  match values with
  | JDict d => lookup_keys d keys
  | _ => JNull
  end.

(** [parse_error_message] (lines 62-83) *)
Definition parse_error_message (raw : string) : E string :=
  let text := trim (JStr raw) in
  if negb (PyStr.nonempty text) then inl "no response body"
  else
    match loads text with
    | inr (JSONDecodeError _) => inl (compact text)
    | inr e => inr e
    | inl decoded =>
        error_value <~ py_get decoded "error" ;;
        let fallback :=
          compact (first_non_empty [map_string decoded "message";
                                    map_string decoded "detail"; text]) in
        match error_value with
        | JStr s =>
            if PyStr.nonempty (trim error_value) then inl (compact s)
            else inl fallback
        | JDict _ =>
            let nested := map_string error_value "message" in
            if PyStr.nonempty nested then inl (compact nested)
            else inl fallback
        | _ => inl fallback
        end
    end.

(** [parse_json_or_none] (lines 86-90) *)
Definition parse_json_or_none (raw : string) : E json :=
  match loads raw with
  | inr (JSONDecodeError _) => inl JNull
  | r => r
  end.

(** [is_async_action] (lines 93-99) *)
Definition is_async_action (action_type : string) (payload : dict) : bool :=
  if String.eqb (PyStr.lower (trim (JStr action_type))) "tinyfish_async" then true
  else if match PyDict.get payload "async" with
          | JBool b => b
          | _ => false
          end then true
  else
    let mode := PyStr.lower (trim (PyDict.get payload "mode")) in
    String.eqb mode "async".

(** [resolve_goal] (lines 102-111) *)
Definition resolve_goal (summary action_target : string) (payload : dict)
    : string :=
  let goal := trim (PyDict.get payload "goal") in
  let goal := if negb (PyStr.nonempty goal)
              then trim (PyDict.get payload "task") else goal in
  let goal := if negb (PyStr.nonempty goal)
              then trim (JStr summary) else goal in
  let target := trim (JStr action_target) in
  let goal :=
    if PyStr.nonempty goal && PyStr.nonempty target
       && negb (PyStr.contains (PyStr.lower target) (PyStr.lower goal))
    then goal ++ PyStr.LF ++ "Target URL: " ++ target
    else goal in
  trim (JStr goal).

(** [resolve_url] (lines 114-121) *)
Definition resolve_url (action_target : string) (payload request_body : dict)
    : string :=
  let request_url := map_string (JDict request_body) "url" in
  if PyStr.nonempty request_url then request_url
  else
    let payload_url := trim (PyDict.get payload "url") in
    if PyStr.nonempty payload_url then payload_url
    else trim (JStr action_target).

(** The copy of [payload.request] when it is a mapping, an empty mapping
    otherwise (lines 125-129). *)
Definition request_part (payload : dict) : dict :=
  match PyDict.get payload "request" with
  | JDict d => d
  | _ => []
  end.

(** [build_request] (lines 124-143) *)
Definition build_request (summary action_target : string) (payload : dict)
    : E dict :=
  let request_body := request_part payload in
  let goal := map_string (JDict request_body) "goal" in
  request_body <~
    (if negb (PyStr.nonempty goal) then
       let goal := resolve_goal summary action_target payload in
       if negb (PyStr.nonempty goal) then
         inr (ValueError
                "tinyfish action requires payload.goal, payload.task, or summary")
       else inl (PyDict.set request_body "goal" (JStr goal))
     else inl request_body) ;;
  let url := resolve_url action_target payload request_body in
  if negb (PyStr.nonempty url) then
    inr (ValueError
           "tinyfish action requires payload.url, payload.request.url, or action_target")
  else inl (PyDict.set request_body "url" (JStr url)).

(** [summarize_response] (lines 146-178) *)
Definition summarize_response (async_mode : bool) (raw : string) : E string :=
  let text := trim (JStr raw) in
  if negb (PyStr.nonempty text) then
    inl (if async_mode then "tinyfish run queued" else "tinyfish run completed")
  else
    decoded <~ parse_json_or_none text ;;
    if negb (is_dict decoded) then
      inl ("tinyfish request completed: " ++ compact text)
    else
      let run_id :=
        first_non_empty [map_string decoded "run_id";
                         nested_map_string decoded "data" "run_id";
                         nested_map_string decoded "run" "id"] in
      if async_mode then
        if PyStr.nonempty run_id
        then inl ("tinyfish run queued with run_id " ++ run_id)
        else inl "tinyfish run queued"
      else
        let output :=
          first_non_empty [map_string decoded "result";
                           map_string decoded "output";
                           map_string decoded "message";
                           nested_map_string decoded "data" "result";
                           nested_map_string decoded "data" "output"] in
        if PyStr.nonempty output then
          if PyStr.nonempty run_id
          then inl ("tinyfish run completed (" ++ run_id ++ "): " ++ compact output)
          else inl ("tinyfish run completed: " ++ compact output)
        else if PyStr.nonempty run_id
        then inl ("tinyfish run completed with run_id " ++ run_id)
        else inl "tinyfish run completed".

Definition plugin_id : string := "tinyfish_agentic_web".

Definition getenv (w : world) (name : string) : string :=
  trim (of_env (environ w name)).

(** [main] (lines 181-245) *)
Definition main (w : world) : M Z :=
  let raw := stdin w in
  if negb (PyStr.nonempty (trim (JStr raw))) then
    fail "tinyfish plugin expected request JSON on stdin"
  else
  try_except (lift (loads raw))
    (fun e =>
       match e with
       | JSONDecodeError msg => fail ("tinyfish plugin invalid stdin JSON: " ++ msg)
       | _ => raise e
       end)
    (fun request =>
  approval <- lift (py_get request "action_approval") ;;
  if negb (is_dict approval) then
    fail "tinyfish plugin missing action_approval object"
  else
  match py_or (map_lookup approval ["payload"; "Payload"]) (JDict []) with
  | JDict payload =>
  let action_type :=
    trim (map_lookup approval ["action_type"; "ActionType"]) in
  let action_target :=
    trim (map_lookup approval ["action_target"; "ActionTarget"]) in
  let action_summary :=
    trim (map_lookup approval ["action_summary"; "ActionSummary"]) in
  let async_mode := is_async_action action_type payload in
  let endpoint :=
    if async_mode then "/v1/automation/run-async" else "/v1/automation/run" in
  try_except (lift (build_request action_summary action_target payload))
    (fun e =>
       match e with
       | ValueError _ | JSONDecodeError _ => fail (exn_text e)
       | _ => raise e
       end)
    (fun body =>
  let api_key := getenv w "TINYFISH_API_KEY" in
  if negb (PyStr.nonempty api_key) then
    fail "tinyfish plugin is not configured: missing api key"
  else
  let base_url :=
    PyStr.or_else (getenv w "TINYFISH_BASE_URL") "https://agent.tinyfish.ai" in
  let base_url := PyStr.rstrip_char "/" base_url in
  let request_url := base_url ++ endpoint in
  let encoded := dumps (JDict body) in
  http_request <- lift (Request request_url encoded
                          [("X-API-Key", api_key);
                           ("Content-Type", "application/json")]) ;;
  timeout_value <-
    lift (py_float (PyStr.or_else (getenv w "TINYFISH_TIMEOUT_SEC") "90")) ;;
  try_except
    (response <- urlopen w http_request timeout_value ;;
     bytes <- read (Some MAX_BODY_BYTES) (snd response) ;;
     ret (utf8_decode bytes, fst response))
    (fun e =>
       match e with
       | HTTPError code stream =>
           bytes <- read (Some MAX_BODY_BYTES) stream ;;
           let error_body := utf8_decode bytes in
           reduced <- lift (parse_error_message error_body) ;;
           fail ("tinyfish request failed: status=" ++ PyStr.str_of_Z code
                 ++ " message=" ++ reduced)
       | _ => fail ("tinyfish request failed: " ++ exn_text e)
       end)
    (fun answer =>
       let response_text := fst answer in
       let status := snd answer in
       if ((status <? 200) || (status >=? 300))%Z then
         reduced <- lift (parse_error_message response_text) ;;
         fail ("tinyfish request failed: status=" ++ PyStr.str_of_Z status
               ++ " message=" ++ reduced)
       else
         message <- lift (summarize_response async_mode response_text) ;;
         print (dumps (JDict [("message", JStr message);
                              ("plugin", JStr plugin_id)])) ;;;
         ret 0%Z))
  | _ => fail "tinyfish plugin payload must be a JSON object"
  end).

(** One run of the script. *)
Definition run (w : world) : process := run_process (main w).

End Script.
End Tinyfish.

(* ===================================================================== *)
(** ** A concrete platform for closed runs *)
(* ===================================================================== *)

(** An executable instance of [Platform].  Its JSON decoder follows the
    grammar of [json.loads] (objects, arrays, strings with escapes, the
    number pattern, [true], [false], [null], [NaN], [Infinity],
    [-Infinity]); a later duplicate key replaces the value of the earlier
    one.  It agrees with CPython on ASCII text without floating-point
    literals, which is what the closed runs below use: the text of a
    decoding error is generic, a [\u] escape above U+00FF is refused, a
    float is shown by its literal, and bytes are decoded one to one. *)
Module Reference.

Definition code (c : ascii) : N := N_of_ascii c.

Definition is_digit (c : ascii) : bool :=
  ((48 <=? code c) && (code c <=? 57))%N.

Definition json_space (c : ascii) : bool :=
  ((code c =? 32) || (code c =? 9) || (code c =? 10) || (code c =? 13))%N.

Fixpoint skip_ws (s : string) : string :=
  match s with
  | String c s' => if json_space c then skip_ws s' else s
  | EmptyString => EmptyString
  end.

Definition hex_value (c : ascii) : option N :=
  let n := code c in
  if ((48 <=? n) && (n <=? 57))%N then Some (n - 48)%N
  else if ((97 <=? n) && (n <=? 102))%N then Some (n - 87)%N
  else if ((65 <=? n) && (n <=? 70))%N then Some (n - 55)%N
  else None.

Definition hex4 (a b c d : ascii) : option N :=
  match hex_value a, hex_value b, hex_value c, hex_value d with
  | Some x, Some y, Some z, Some t => Some (((x * 16 + y) * 16 + z) * 16 + t)%N
  | _, _, _, _ => None
  end.

(** The character a one-letter escape stands for. *)
Definition simple_escape (c : ascii) : option ascii :=
  let n := code c in
  if (n =? 34)%N then Some c
  else if (n =? 92)%N then Some c
  else if (n =? 47)%N then Some c
  else if (n =? 98)%N then Some (ascii_of_nat 8)
  else if (n =? 102)%N then Some (ascii_of_nat 12)
  else if (n =? 110)%N then Some (ascii_of_nat 10)
  else if (n =? 114)%N then Some (ascii_of_nat 13)
  else if (n =? 116)%N then Some (ascii_of_nat 9)
  else None.

Definition push (c : ascii) (r : option (string * string))
    : option (string * string) :=
  match r with
  | Some (content, rest) => Some (String c content, rest)
  | None => None
  end.

(** The content of a string literal and the text after its closing quote;
    the argument starts after the opening quote. *)
Fixpoint scan_string (s : string) : option (string * string) :=
  match s with
  | EmptyString => None
  | String c r =>
      if (code c =? 34)%N then Some (EmptyString, r)
      else if (code c =? 92)%N then
        match r with
        | EmptyString => None
        | String e r' =>
            if (code e =? 117)%N then
              match r' with
              | String h1 (String h2 (String h3 (String h4 r''))) =>
                  match hex4 h1 h2 h3 h4 with
                  | Some n =>
                      if (n <? 256)%N then push (ascii_of_N n) (scan_string r'')
                      else None
                  | None => None
                  end
              | _ => None
              end
            else
              match simple_escape e with
              | Some ch => push ch (scan_string r')
              | None => None
              end
        end
      else if (code c <? 32)%N then None
      else push c (scan_string r)
  end.

(** The longest prefix of digits and what follows it. *)
Fixpoint span_digits (s : string) : string * string :=
  match s with
  | String c s' =>
      if is_digit c then
        let (ds, rest) := span_digits s' in (String c ds, rest)
      else (EmptyString, s)
  | EmptyString => (EmptyString, EmptyString)
  end.

Fixpoint decimal (acc : Z) (digits : string) : Z :=
  match digits with
  | EmptyString => acc
  | String c ds => decimal (acc * 10 + Z.of_N (code c - 48)) ds
  end.

(** The number pattern of [json.scanner]: an optional minus, an integer
    part without a leading zero, an optional fraction, an optional
    exponent. *)
Definition scan_number (s : string) : option (json * string) :=
  let (sign, s1) :=
    match s with
    | String c r => if (code c =? 45)%N then ("-", r) else ("", s)
    | EmptyString => ("", s)
    end in
  let (int_part, s2) :=
    match s1 with
    | String c r => if (code c =? 48)%N then ("0", r) else span_digits s1
    | EmptyString => ("", s1)
    end in
  match int_part with
  | EmptyString => None
  | _ =>
      let (frac, s3) :=
        match s2 with
        | String c r =>
            if (code c =? 46)%N then
              match span_digits r with
              | (EmptyString, _) => ("", s2)
              | (ds, rest) => (String c ds, rest)
              end
            else ("", s2)
        | EmptyString => ("", s2)
        end in
      let (expo, s4) :=
        match s3 with
        | String c r =>
            if ((code c =? 101) || (code c =? 69))%N then
              let (esign, r') :=
                match r with
                | String d r1 =>
                    if ((code d =? 43) || (code d =? 45))%N
                    then (String d EmptyString, r1) else ("", r)
                | EmptyString => ("", r)
                end in
              match span_digits r' with
              | (EmptyString, _) => ("", s3)
              | (ds, rest) => (String c (esign ++ ds), rest)
              end
            else ("", s3)
        | EmptyString => ("", s3)
        end in
      match frac, expo with
      | EmptyString, EmptyString =>
          let n := decimal 0 int_part in
          Some (JInt (if PyStr.nonempty sign then - n else n)%Z, s4)
      | _, _ => Some (JFloat (sign ++ int_part ++ frac ++ expo), s4)
      end
  end.

(** [s] without the prefix [p], when it starts with it. *)
Fixpoint after (p s : string) : option string :=
  match p, s with
  | EmptyString, _ => Some s
  | String a p', String b s' => if Ascii.eqb a b then after p' s' else None
  | String _ _, EmptyString => None
  end.

Definition scan_constant (s : string) : option (json * string) :=
  match after "null" s with
  | Some r => Some (JNull, r)
  | None =>
  match after "true" s with
  | Some r => Some (JBool true, r)
  | None =>
  match after "false" s with
  | Some r => Some (JBool false, r)
  | None =>
  match after "NaN" s with
  | Some r => Some (JFloat "NaN", r)
  | None =>
  match after "Infinity" s with
  | Some r => Some (JFloat "Infinity", r)
  | None =>
  match after "-Infinity" s with
  | Some r => Some (JFloat "-Infinity", r)
  | None => scan_number s
  end end end end end end.

(** One value at the start of the text, and the text after it. *)
Fixpoint parse_value (fuel : nat) (s : string) {struct fuel}
    : option (json * string) :=
  match fuel with
  | O => None
  | S fuel' =>
      match s with
      | EmptyString => None
      | String c r =>
          if (code c =? 34)%N then
            match scan_string r with
            | Some (content, rest) => Some (JStr content, rest)
            | None => None
            end
          else if (code c =? 123)%N then
            match skip_ws r with
            | String d rest =>
                if (code d =? 125)%N then Some (JDict [], rest)
                else parse_members fuel' [] (skip_ws r)
            | EmptyString => None
            end
          else if (code c =? 91)%N then
            match skip_ws r with
            | String d rest =>
                if (code d =? 93)%N then Some (JList [], rest)
                else parse_elements fuel' [] (skip_ws r)
            | EmptyString => None
            end
          else scan_constant s
      end
  end

with parse_members (fuel : nat) (acc : dict) (s : string) {struct fuel}
    : option (json * string) :=
  match fuel with
  | O => None
  | S fuel' =>
      match s with
      | EmptyString => None
      | String c r =>
          if negb (code c =? 34)%N then None
          else
            match scan_string r with
            | None => None
            | Some (key, rest) =>
                match skip_ws rest with
                | EmptyString => None
                | String colon rest1 =>
                    if negb (code colon =? 58)%N then None
                    else
                      match parse_value fuel' (skip_ws rest1) with
                      | None => None
                      | Some (v, rest2) =>
                          let acc' := PyDict.set acc key v in
                          match skip_ws rest2 with
                          | EmptyString => None
                          | String d rest3 =>
                              if (code d =? 125)%N then Some (JDict acc', rest3)
                              else if (code d =? 44)%N
                              then parse_members fuel' acc' (skip_ws rest3)
                              else None
                          end
                      end
                end
            end
      end
  end

with parse_elements (fuel : nat) (acc : list json) (s : string) {struct fuel}
    : option (json * string) :=
  match fuel with
  | O => None
  | S fuel' =>
      match parse_value fuel' s with
      | None => None
      | Some (v, rest) =>
          match skip_ws rest with
          | EmptyString => None
          | String d rest1 =>
              if (code d =? 93)%N then Some (JList (acc ++ [v])%list, rest1)
              else if (code d =? 44)%N
              then parse_elements fuel' (acc ++ [v])%list (skip_ws rest1)
              else None
          end
      end
  end.

Definition decode_json (s : string) : json + string :=
  match parse_value (2 * String.length s + 2) (skip_ws s) with
  | Some (v, rest) =>
      match skip_ws rest with
      | EmptyString => inl v
      | _ => inr "Extra data"
      end
  | None => inr "Expecting value"
  end.

(** [float(s)] accepts an optional sign, digits and an optional fraction. *)
Definition plain_decimal (s : string) : bool :=
  let s := PyStr.strip s in
  let s := match s with
           | String c r => if ((code c =? 43) || (code c =? 45))%N then r else s
           | EmptyString => s
           end in
  match span_digits s with
  | (EmptyString, _) => false
  | (_, EmptyString) => true
  | (_, String c r) =>
      if (code c =? 46)%N then
        match span_digits r with
        | (_, EmptyString) => true
        | _ => false
        end
      else false
  end.

(** A URL has a type when it starts with a non-empty run of characters
    other than [/] and [:] that is followed by a colon. *)
Fixpoint has_scheme (seen : bool) (u : string) : bool :=
  match u with
  | EmptyString => false
  | String c r =>
      if (code c =? 58)%N then seen
      else if (code c =? 47)%N then false
      else has_scheme true r
  end.

Definition all_zero (s : string) : bool :=
  match after "NaN" s, after "Infinity" s, after "-Infinity" s with
  | None, None, None =>
      (fix go (t : string) : bool :=
         match t with
         | EmptyString => true
         | String c r =>
             if ((code c =? 101) || (code c =? 69))%N then true
             else if ((49 <=? code c) && (code c <=? 57))%N then false
             else go r
         end) s
  | _, _, _ => false
  end.

#[export] Instance platform : Platform := {|
  json_loads := decode_json;
  float_repr := fun literal => literal;
  float_truthy := fun literal => negb (all_zero literal);
  float_dumps := fun literal => literal;
  container_repr := fun _ => "[...]";
  utf8_decode := fun bytes => bytes;
  float_error := fun s =>
    if plain_decimal s then None
    else Some "could not convert string to float";
  request_error := fun u =>
    if has_scheme false u then None else Some "unknown url type"
|}.

End Reference.

(* ===================================================================== *)
(** ** Reasoning about effectful code *)
(* ===================================================================== *)

(** [post m t Q]: started in trace [t], the computation [m] ends in a trace
    and a result that satisfy [Q]. *)
Definition post {A} (m : M A) (t : trace) (Q : trace -> A + exn -> Prop) : Prop :=
  Q (fst (m t)) (snd (m t)).

Definition wrote_err (t : trace) (s : string) : trace :=
  {| stdout := stdout t; stderr := stderr t ++ s;
     sent := sent t; consumed := consumed t |}.

Definition wrote_out (t : trace) (s : string) : trace :=
  {| stdout := stdout t ++ s; stderr := stderr t;
     sent := sent t; consumed := consumed t |}.

Definition called (t : trace) (c : http_call) : trace :=
  {| stdout := stdout t; stderr := stderr t;
     sent := (sent t ++ [c])%list; consumed := consumed t |}.

Definition took (t : trace) (n : nat) : trace :=
  {| stdout := stdout t; stderr := stderr t;
     sent := sent t; consumed := consumed t + n |}.

(** What [read] returns. *)
Definition chunk (limit : option nat) (body : string) : string :=
  match limit with
  | None => body
  | Some n => PyStr.take n body
  end.


(* ===================================================================== *)
(** ** Notions used in the statements *)
(* ===================================================================== *)

(** The two adapters and their runs. *)
Inductive adapter : Type := Email | Automation.

Definition run_of {P : Platform} (a : adapter) (w : world) : process :=
  match a with
  | Email => Resend.run w
  | Automation => Tinyfish.run w
  end.

(** Equality of two strings up to the case of letters. *)
Definition eq_nocase (a b : string) : bool :=
  String.eqb (PyStr.lower a) (PyStr.lower b).

(** The run issued one call and the provider answered it with a response
    of the given status. *)
Definition answered (w : world) (r : process) (status : Z) : Prop :=
  exists call body, requests r = [call] /\ provider w call = Responds status body.


Definition failed (r : process) : Prop :=
  exit_code r = 1%Z /\ out r = "".

(** The kinds of error that end a run before its request: input errors,
    validation errors (one per required field) and the configuration
    error. *)
Inductive error_class : Type :=
| EmptyStdin
| InvalidJson
| MissingApproval
| MalformedPayload
| MissingRecipient
| MissingSender
| MissingBody
| MissingGoal
| MissingUrl
| MissingCredential.

Section Occurrence.
Context {P : Platform}.

Definition payload_keys : list string := ["payload"; "Payload"].
Definition target_keys : list string := ["action_target"; "ActionTarget"].
Definition summary_keys : list string := ["action_summary"; "ActionSummary"].

(** The value the scripts take for the payload: the first of [payload],
    [Payload] that is present, or an empty mapping when that is falsy. *)
Definition selected_payload (approval : dict) : json :=
  py_or (Resend.map_lookup (JDict approval) payload_keys) (JDict []).

(** Standard input holds a document whose [action_approval] is the mapping
    [approval] and whose payload is the mapping [payload]. *)
Definition reads (w : world) (approval payload : dict) : Prop :=
  PyStr.strip (stdin w) <> ""
  /\ exists request,
       json_loads (stdin w) = inl request
       /\ py_get request "action_approval" = inl (JDict approval)
       /\ selected_payload approval = JDict payload.

(** The string coercion of a field of the approval record. *)
Definition approval_text (approval : dict) (keys : list string) : string :=
  Resend.str_or_empty (Resend.map_lookup (JDict approval) keys).

(** A required field is missing for the adapter. *)
Definition missing (a : adapter) (c : error_class) (w : world)
    (approval payload : dict) : Prop :=
  match a, c with
  | Email, MissingRecipient =>
      Resend.normalize_recipients (PyDict.get payload "to") = []
      /\ Resend.normalize_recipients (JStr (approval_text approval target_keys)) = []
  | Email, MissingSender =>
      Resend.str_or_empty (PyDict.get payload "from") = ""
      /\ Resend.getenv w "RESEND_FROM" = ""
  | Email, MissingBody =>
      Resend.str_or_empty (PyDict.get payload "text") = ""
      /\ Resend.str_or_empty (PyDict.get payload "html") = ""
      /\ approval_text approval summary_keys = ""
  | Automation, MissingGoal =>
      Tinyfish.map_string (JDict (Tinyfish.request_part payload)) "goal" = ""
      /\ Tinyfish.trim (PyDict.get payload "goal") = ""
      /\ Tinyfish.trim (PyDict.get payload "task") = ""
      /\ approval_text approval summary_keys = ""
  | Automation, MissingUrl =>
      Tinyfish.map_string (JDict (Tinyfish.request_part payload)) "url" = ""
      /\ Tinyfish.trim (PyDict.get payload "url") = ""
      /\ approval_text approval target_keys = ""
  | _, _ => False
  end.


End Occurrence.

(** The diagnostic of a payload that is not a mapping. *)
Definition payload_error (a : adapter) : string :=
  match a with
  | Email => "resend plugin payload must be a JSON object"
  | Automation => "tinyfish plugin payload must be a JSON object"
  end.

(** The identifier each adapter reports. *)
Definition plugin_of (a : adapter) : string :=
  match a with
  | Email => Resend.plugin_id
  | Automation => Tinyfish.plugin_id
  end.

(** The object a successful run prints. *)
Definition result_object (a : adapter) (message : string) : json :=
  JDict [("message", JStr message); ("plugin", JStr (plugin_of a))].

Definition is_lf (c : ascii) : bool := (N_of_ascii c =? 10)%N.

(** No line feed in the text. *)
Fixpoint no_lf (s : string) : bool :=
  match s with
  | EmptyString => true
  | String c s' => negb (is_lf c) && no_lf s'
  end.

(** Exactly one line: text without line feed, then one line feed. *)
Fixpoint is_line (s : string) : bool :=
  match s with
  | EmptyString => false
  | String c EmptyString => is_lf c
  | String c s' => negb (is_lf c) && is_line s'
  end.



(** The words of the specification for text that is not JSON: every run
    of whitespace becomes one space, and the result is cut to 1200
    characters, with an ellipsis when it was longer. *)
Fixpoint collapse_runs (in_run : bool) (s : string) : string :=
  match s with
  | EmptyString => EmptyString
  | String c s' =>
      if PyStr.isspace c then
        if in_run then collapse_runs true s'
        else String " " (collapse_runs true s')
      else String c (collapse_runs false s')
  end.

Definition reduced_raw (raw : string) : string :=
  let text := collapse_runs false (PyStr.strip raw) in
  if Nat.leb (String.length text) 1200 then text
  else PyStr.take 1200 text ++ "...".

Section ClaimedGoal.
Context {P : Platform}.

(** The goal as C7 words it: the first non-empty of [payload.goal],
    [payload.task], the summary and a hint, with the target appended on a
    labeled line when the goal does not contain it. *)
Definition claimed_goal (hint summary action_target : string) (payload : dict)
    : string :=
  let goal :=
    Tinyfish.first_non_empty
      [Tinyfish.trim (PyDict.get payload "goal");
       Tinyfish.trim (PyDict.get payload "task"); summary; hint] in
  if PyStr.nonempty action_target && negb (PyStr.contains action_target goal)
  then goal ++ PyStr.LF ++ "Target URL: " ++ action_target
  else goal.

End ClaimedGoal.

(* ===================================================================== *)
(** ** Worlds of the closed runs *)
(* ===================================================================== *)

Module Worlds.
Import PyStr.

Definition env (bindings : list (string * string)) (name : string)
    : option string :=
  match find (fun kv => String.eqb (fst kv) name) bindings with
  | Some kv => Some (snd kv)
  | None => None
  end.

(** Scenario A: the email is sent and the provider answers 201. *)
Definition stdin_A : string :=
  dq "{'action_approval':{'payload':{'to':'a@x.com','from':'b@x.com','subject':'Hi','text':'Hello'}}}".

Definition document_A : json :=
  JDict [("action_approval",
          JDict [("payload",
                  JDict [("to", JStr "a@x.com"); ("from", JStr "b@x.com");
                         ("subject", JStr "Hi"); ("text", JStr "Hello")])])].

Definition body_A : string := dq "{'id':'em_123'}".

Definition scenario_A : world :=
  {| stdin := stdin_A;
     environ := env [("RESEND_API_KEY", "re_key")];
     provider := fun _ => Responds 201 body_A |}.

(** The line the code prints in scenario A, and the line without spaces
    after the separators. *)
Definition line_A : string :=
  dq "{'message': 'resend email sent to a@x.com (id: em_123)', 'plugin': 'external_resend_email'}".

Definition compact_line_A : string :=
  dq "{'message':'resend email sent to a@x.com (id: em_123)','plugin':'external_resend_email'}".


(** The provider rejects the email with an error page of two lines. *)
Definition two_lines : string := "Bad Gateway" ++ LF ++ "upstream timed out".

Definition rejected_email : world :=
  {| stdin := stdin_A;
     environ := env [("RESEND_API_KEY", "re_key")];
     provider := fun _ => RaisesHTTPError 502 two_lines |}.

(** The provider answers the email with a body one byte longer than
    [MAX_BODY_BYTES]. *)
Fixpoint replicate (n : nat) (c : ascii) : string :=
  match n with
  | O => EmptyString
  | S n' => String c (replicate n' c)
  end.

Definition long_answer : world :=
  {| stdin := stdin_A;
     environ := env [("RESEND_API_KEY", "re_key")];
     provider := fun _ => Responds 200 (replicate (S Tinyfish.MAX_BODY_BYTES) "a") |}.

(** The payload is an empty list: present, not a mapping. *)
Definition list_payload : world :=
  {| stdin := dq "{'action_approval':{'payload':[],'action_target':'a@x.com','action_summary':'Hi'}}";
     environ := env [("RESEND_API_KEY", "re_key"); ("RESEND_FROM", "b@x.com")];
     provider := fun _ => Responds 200 body_A |}.

(** The payload is a non-empty string: truthy, not a mapping. *)
Definition text_payload : world :=
  {| stdin := dq "{'action_approval':{'payload':'hello'}}";
     environ := env [("RESEND_API_KEY", "re_key")];
     provider := fun _ => Responds 200 body_A |}.

(** Scenario C: an automation run is queued; scenario D: the provider
    answers 500. *)
Definition stdin_C : string :=
  dq "{'action_approval':{'payload':{'mode':'async','goal':'scrape','url':'http://e.com'}}}".

Definition scenario_C : world :=
  {| stdin := stdin_C;
     environ := env [("TINYFISH_API_KEY", "tf_key")];
     provider := fun _ => Responds 202 (dq "{'run_id':'r1'}") |}.

Definition scenario_D : world :=
  {| stdin := stdin_C;
     environ := env [("TINYFISH_API_KEY", "tf_key")];
     provider := fun _ => RaisesHTTPError 500 (dq "{'error':'rate limited'}") |}.

(** The automation provider answers 500 with a JSON list. *)
Definition list_error : world :=
  {| stdin := stdin_C;
     environ := env [("TINYFISH_API_KEY", "tf_key")];
     provider := fun _ => RaisesHTTPError 500 "[]" |}.


Definition shouting : dict := [("goal", JStr "Visit HTTP://E.COM")].

End Worlds.

(* ===================================================================== *)
(** ** Notions used in the further properties *)
(* ===================================================================== *)

(** The character occurs in the text. *)
Fixpoint mentions (ch : ascii) (s : string) : bool :=
  match s with
  | EmptyString => false
  | String c s' => Ascii.eqb c ch || mentions ch s'
  end.

(** No whitespace in the text. *)
Fixpoint no_space (s : string) : bool :=
  match s with
  | EmptyString => true
  | String c s' => negb (PyStr.isspace c) && no_space s'
  end.

(** An address as [normalize_recipients] returns it: not empty, without
    surrounding whitespace, without a comma. *)
Definition clean_address (r : string) : Prop :=
  r <> "" /\ PyStr.strip r = r /\ mentions "," r = false.

(** How each adapter opens the diagnostic of a failed request. *)
Definition request_failed (a : adapter) : string :=
  match a with
  | Email => "resend request failed: "
  | Automation => "tinyfish request failed: "
  end.

(** The argument each adapter gives to [read], and the text it takes from
    a body of bytes. *)
Definition read_limit (a : adapter) : option nat :=
  match a with
  | Email => None
  | Automation => Some Tinyfish.MAX_BODY_BYTES
  end.

Definition received {P : Platform} (a : adapter) (body : string) : string :=
  utf8_decode (chunk (read_limit a) body).

(** What each adapter reports for an HTTP error without a body. *)
Definition no_body_text (a : adapter) (code : Z) : string :=
  match a with
  | Email => "HTTP " ++ PyStr.str_of_Z code
  | Automation => "no response body"
  end.

(** The text each adapter gives to [float] for the timeout. *)
Definition timeout_setting {P : Platform} (a : adapter) (w : world) : string :=
  match a with
  | Email => PyStr.or_else (Resend.getenv w "RESEND_TIMEOUT_SEC") "30"
  | Automation => PyStr.or_else (Tinyfish.getenv w "TINYFISH_TIMEOUT_SEC") "90"
  end.

(** The base URL and the credential of each adapter. *)
Definition base_url {P : Platform} (a : adapter) (w : world) : string :=
  match a with
  | Email =>
      PyStr.rstrip_char "/"
        (PyStr.or_else (Resend.getenv w "RESEND_API_BASE") "https://api.resend.com")
  | Automation =>
      PyStr.rstrip_char "/"
        (PyStr.or_else (Tinyfish.getenv w "TINYFISH_BASE_URL")
           "https://agent.tinyfish.ai")
  end.

Definition api_key {P : Platform} (a : adapter) (w : world) : string :=
  match a with
  | Email => Resend.getenv w "RESEND_API_KEY"
  | Automation => Tinyfish.getenv w "TINYFISH_API_KEY"
  end.

(** The headers of each adapter's request. *)
Definition request_headers {P : Platform} (a : adapter) (w : world)
    : list (string * string) :=
  match a with
  | Email =>
      [("Authorization", "Bearer " ++ api_key Email w);
       ("Content-Type", "application/json");
       ("User-Agent", "curl/8.7.1")]
  | Automation =>
      [("X-API-Key", api_key Automation w);
       ("Content-Type", "application/json")]
  end.

(** The path the automation adapter posts to. *)
Definition automation_path (async_mode : bool) : string :=
  if async_mode then "/v1/automation/run-async" else "/v1/automation/run".

Module MoreWorlds.
Import PyStr Worlds.

(** Standard input holds a JSON list. *)
Definition list_document : world :=
  {| stdin := "[1]";
     environ := env [("RESEND_API_KEY", "re_key")];
     provider := fun _ => Responds 200 body_A |}.

(** The timeout setting is not a number. *)
Definition bad_timeout : world :=
  {| stdin := stdin_A;
     environ := env [("RESEND_API_KEY", "re_key"); ("RESEND_TIMEOUT_SEC", "soon")];
     provider := fun _ => Responds 200 body_A |}.

(** The provider cannot be reached. *)
Definition unreachable : world :=
  {| stdin := stdin_C;
     environ := env [("TINYFISH_API_KEY", "tf_key")];
     provider := fun _ => RaisesOther "<urlopen error timed out>" |}.

(** The provider answers 503 without a body. *)
Definition empty_error : world :=
  {| stdin := stdin_A;
     environ := env [("RESEND_API_KEY", "re_key")];
     provider := fun _ => RaisesHTTPError 503 "" |}.

(** The provider answers the email with 429. *)
Definition refused_email : world :=
  {| stdin := stdin_A;
     environ := env [("RESEND_API_KEY", "re_key")];
     provider := fun _ => Responds 429 "slow down" |}.

(** The provider answers 404 with a page of two lines. *)
Definition not_found : world :=
  {| stdin := stdin_C;
     environ := env [("TINYFISH_API_KEY", "tf_key")];
     provider := fun _ => Responds 404 two_lines |}.

(** The call of the email worlds and the call of the automation worlds. *)
Definition call_A : http_call :=
  {| target := {| url := "https://api.resend.com/emails";
                  data := dq "{'from': 'b@x.com', 'to': ['a@x.com'], 'subject': 'Hi', 'text': 'Hello'}";
                  headers := [("Authorization", "Bearer re_key");
                              ("Content-Type", "application/json");
                              ("User-Agent", "curl/8.7.1")];
                  method := "POST" |};
     timeout := "30" |}.

Definition call_C : http_call :=
  {| target := {| url := "https://agent.tinyfish.ai/v1/automation/run-async";
                  data := dq "{'goal': 'scrape', 'url': 'http://e.com'}";
                  headers := [("X-API-Key", "tf_key");
                              ("Content-Type", "application/json")];
                  method := "POST" |};
     timeout := "90" |}.

(** The payload that scenario C puts on standard input. *)
Definition payload_C : dict :=
  [("mode", JStr "async"); ("goal", JStr "scrape"); ("url", JStr "http://e.com")].

(** A request part that carries a field of its own. *)
Definition payload_with_request : dict :=
  [("goal", JStr "scrape");
   ("request", JDict [("browser_profile", JStr "stealth")])].

End MoreWorlds.

(* ===================================================================== *)
(** ** Rules for effectful code *)
(* ===================================================================== *)

Section Rules.
Context {A B : Type}.
Implicit Types (t : trace).

Lemma post_ret (a : A) t Q : Q t (inl a) -> post (ret a) t Q.
Proof. exact (fun H => H). Qed.

Lemma post_raise e t (Q : trace -> A + exn -> Prop) :
  Q t (inr e) -> post (raise e) t Q.
Proof. exact (fun H => H). Qed.

Lemma post_lift (r : E A) t Q : Q t r -> post (lift r) t Q.
Proof. destruct r; exact (fun H => H). Qed.

Lemma post_bind (m : M A) (k : A -> M B) t Q :
  post m t (fun t' r => match r with
                        | inl a => post (k a) t' Q
                        | inr e => Q t' (inr e)
                        end) ->
  post (bind m k) t Q.
Proof. unfold post, bind. destruct (m t) as [t' [a|e]]; simpl; auto. Qed.

Lemma post_try (m : M A) (h : exn -> M B) (k : A -> M B) t Q :
  post m t (fun t' r => match r with
                        | inl a => post (k a) t' Q
                        | inr e => post (h e) t' Q
                        end) ->
  post (try_except m h k) t Q.
Proof. unfold post, try_except. destruct (m t) as [t' [a|e]]; simpl; auto. Qed.

End Rules.

Lemma post_print s t Q :
  Q (wrote_out t (s ++ PyStr.LF)) (inl tt) -> post (print s) t Q.
Proof. exact (fun H => H). Qed.

Lemma post_read limit body t Q :
  Q (took t (String.length (chunk limit body))) (inl (chunk limit body)) ->
  post (read limit body) t Q.
Proof. exact (fun H => H). Qed.

Lemma post_urlopen w req seconds t Q :
  let call := {| target := req; timeout := seconds |} in
  (forall status body, provider w call = Responds status body ->
     Q (called t call) (inl (status, body))) ->
  (forall code body, provider w call = RaisesHTTPError code body ->
     Q (called t call) (inr (HTTPError code body))) ->
  (forall msg, provider w call = RaisesOther msg ->
     Q (called t call) (inr (OtherError msg))) ->
  post (urlopen w req seconds) t Q.
Proof.
  intros call H1 H2 H3. unfold post, urlopen. fold call.
  destruct (provider w call) eqn:Hp; simpl; auto.
Qed.

Lemma run_post (m : M Z) (Phi : process -> Prop) :
  post m quiet (fun t r => Phi (process_of t r)) -> Phi (run_process m).
Proof. exact (fun H => H). Qed.

Section FailRules.
Context {P : Platform}.

Lemma post_resend_fail msg t Q :
  Q (wrote_err t (PyStr.strip msg ++ PyStr.LF)) (inl 1%Z) ->
  post (Resend.fail msg) t Q.
Proof. exact (fun H => H). Qed.

Lemma post_tinyfish_fail msg t Q :
  Q (wrote_err t (PyStr.strip msg ++ PyStr.LF)) (inl 1%Z) ->
  post (Tinyfish.fail msg) t Q.
Proof. exact (fun H => H). Qed.

End FailRules.

(** Names a [let] of the program and keeps its equation. *)
Ltac wp_let :=
  lazymatch goal with
  | |- post (let x := ?v in @?f x) ?t ?Q =>
      let y := fresh x in
      let Hy := fresh "E" y in
      change (post (f v) t Q); remember v as y eqn:Hy; cbv beta
  end.

(** One step through the program: a rule for each construct, a case split
    with its equation at each test. *)
Ltac wp_step :=
  lazymatch goal with
  | |- post (ret _) _ _ => apply post_ret
  | |- post (raise _) _ _ => apply post_raise
  | |- post (lift _) _ _ => apply post_lift
  | |- post (bind _ _) _ _ => apply post_bind
  | |- post (try_except _ _ _) _ _ => apply post_try
  | |- post (Resend.fail _) _ _ => apply post_resend_fail
  | |- post (Tinyfish.fail _) _ _ => apply post_tinyfish_fail
  | |- post (print _) _ _ => apply post_print
  | |- post (read _ _) _ _ => apply post_read
  | |- post (urlopen _ _ _) _ _ => apply post_urlopen; intros
  | |- post (let x := _ in _) _ _ => wp_let
  | |- post (if ?c then _ else _) _ _ => destruct c eqn:?
  | |- post (match ?x with _ => _ end) _ _ => destruct x eqn:?
  | |- match ?r with inl _ => _ | inr _ => _ end => destruct r eqn:?
  end.

Ltac wp := repeat (cbv beta; wp_step).

Ltac run_resend :=
  unfold Resend.run; apply run_post; cbv beta delta [Resend.main]; wp.

Ltac run_tinyfish :=
  unfold Tinyfish.run; apply run_post; cbv beta delta [Tinyfish.main]; wp.

(* ===================================================================== *)
(** ** Facts about strings *)
(* ===================================================================== *)

Module StrFacts.
Import PyStr.

Lemma nonempty_true s : nonempty s = true <-> s <> "".
Proof. destruct s; simpl; split; congruence. Qed.

Lemma nonempty_false s : nonempty s = false <-> s = "".
Proof. destruct s; simpl; split; congruence. Qed.

Lemma app_nil_r s : s ++ "" = s.
Proof. induction s; simpl; congruence. Qed.

Lemma app_assoc a b c : (a ++ b) ++ c = a ++ b ++ c.
Proof. induction a; simpl; congruence. Qed.

Lemma app_eq_nil a b : a ++ b = "" -> a = "" /\ b = "".
Proof. destruct a; simpl; [auto | discriminate]. Qed.

Lemma length_app a b : String.length (a ++ b) = String.length a + String.length b.
Proof. induction a; simpl; congruence. Qed.

(** *** [lstrip], [rstrip], [strip] *)

Lemma lstrip_head s : lstrip s = "" \/ starts_word (lstrip s) = true.
Proof.
  induction s as [|c s IH]; simpl; auto.
  destruct (isspace c) eqn:Hc; auto.
  right. simpl. now rewrite Hc.
Qed.

Lemma lstrip_id s : starts_word s = true -> lstrip s = s.
Proof.
  destruct s as [|c s]; simpl; auto.
  destruct (isspace c); simpl; congruence.
Qed.

Lemma rstrip_idem s : rstrip (rstrip s) = rstrip s.
Proof.
  induction s as [|c s IH]; simpl; auto.
  destruct (rstrip s) as [|d r] eqn:Hr.
  - destruct (isspace c) eqn:Hc; simpl; auto. now rewrite Hc.
  - change (rstrip (String c (String d r)) = String c (String d r)).
    simpl in IH |- *. destruct (rstrip r) eqn:Hr'.
    + destruct (isspace d); try discriminate. now inversion IH.
    + now inversion IH.
Qed.

Lemma rstrip_starts s : starts_word s = true -> starts_word (rstrip s) = true.
Proof.
  destruct s as [|c s]; simpl; auto.
  intros Hc. destruct (rstrip s); simpl; auto.
  destruct (isspace c) eqn:E; simpl in *; [congruence | now rewrite E].
Qed.

Lemma rstrip_app x b : rstrip b <> "" -> rstrip (x ++ b) = x ++ rstrip b.
Proof.
  intros Hb. induction x as [|c x IH]; simpl; auto.
  rewrite IH. destruct (x ++ rstrip b) eqn:Hx; auto.
  apply app_eq_nil in Hx. tauto.
Qed.

Lemma strip_idem s : strip (strip s) = strip s.
Proof.
  unfold strip. destruct (lstrip_head s) as [H|H].
  - rewrite H. reflexivity.
  - rewrite (lstrip_id (rstrip (lstrip s))) by now apply rstrip_starts.
    apply rstrip_idem.
Qed.

Lemma strip_fixed a :
  a <> "" -> strip a = a -> starts_word a = true /\ rstrip a = a.
Proof.
  unfold strip. intros Ha Hs.
  destruct (lstrip_head a) as [H|H].
  - rewrite H in Hs. simpl in Hs. congruence.
  - apply rstrip_starts in H. rewrite Hs in H. split; auto.
    rewrite (lstrip_id a H) in Hs. exact Hs.
Qed.

(** Text that begins and ends with stripped, non-empty pieces is not
    changed by [strip]. *)
Lemma strip_glue a m b :
  a <> "" -> strip a = a -> b <> "" -> strip b = b ->
  strip (a ++ m ++ b) = a ++ m ++ b.
Proof.
  intros Ha Hsa Hb Hsb.
  destruct (strip_fixed a Ha Hsa) as [Ha1 _].
  destruct (strip_fixed b Hb Hsb) as [_ Hb2].
  unfold strip. rewrite lstrip_id.
  - rewrite rstrip_app.
    + rewrite rstrip_app by congruence. now rewrite Hb2.
    + rewrite rstrip_app by congruence. rewrite Hb2.
      intros H. apply app_eq_nil in H. tauto.
  - destruct a; simpl in *; congruence.
Qed.

Lemma strip_nil : strip "" = "".
Proof. reflexivity. Qed.

(** *** [take] *)

Lemma substring_length n s : String.length (String.substring 0 n s) <= n.
Proof.
  revert s. induction n as [|n IH]; intros [|c s]; simpl; auto with arith.
Qed.

Lemma take_length n s : String.length (take n s) <= n.
Proof. apply substring_length. Qed.


End StrFacts.

(* ===================================================================== *)
(** ** Facts about lines and [json.dumps] *)
(* ===================================================================== *)

Module LineFacts.
Import PyStr StrFacts.

Lemma no_lf_app a b : no_lf (a ++ b) = no_lf a && no_lf b.
Proof.
  induction a as [|c a IH]; simpl; auto.
  rewrite IH. now rewrite andb_assoc.
Qed.

Lemma is_line_app_lf t : is_line (t ++ LF) = no_lf t.
Proof.
  induction t as [|c t IH]; auto.
  change (is_line (String c (t ++ LF)) = negb (is_lf c) && no_lf t).
  rewrite <- IH. simpl. destruct (t ++ LF) eqn:E; auto.
  destruct t; discriminate E.
Qed.





End LineFacts.

(* ===================================================================== *)
(** ** [compact] collapses runs of whitespace *)
(* ===================================================================== *)

Module CompactFacts.
Import PyStr StrFacts.

Lemma rstrip_tail c s : rstrip (String c s) = String c s -> rstrip s = s.
Proof.
  simpl. destruct (rstrip s) as [|d r] eqn:Hr.
  - destruct (isspace c); intros H; inversion H. reflexivity.
  - intros H. inversion H. reflexivity.
Qed.

Lemma rstrip_space c : isspace c = true -> rstrip (String c "") <> String c "".
Proof. simpl. intros ->. discriminate. Qed.

Lemma split_nil s : split s = [] -> rstrip s = "".
Proof.
  induction s as [|c s IH]; simpl; auto.
  destruct (isspace c) eqn:Hc.
  - intros H. rewrite (IH H). reflexivity.
  - destruct (starts_word s); [destruct (split s)|]; discriminate.
Qed.

Lemma join_cons_char sep c w ws :
  join sep (String c w :: ws) = String c (join sep (w :: ws)).
Proof. destruct ws; reflexivity. Qed.

(** On text without trailing whitespace, joining the words with one space
    is collapsing the runs; leading whitespace gives one leading space
    unless a run is already open. *)
Lemma join_split_collapse s :
  rstrip s = s ->
  collapse_runs true s = join " " (split s)
  /\ collapse_runs false s =
     (if starts_word s then join " " (split s)
      else match s with
           | EmptyString => EmptyString
           | _ => String " " (join " " (split s))
           end).
Proof.
  induction s as [|c s IH]; intros Hs; [split; reflexivity|].
  assert (Hs' := rstrip_tail c s Hs). destruct (IH Hs') as [IHt IHf].
  simpl. destruct (isspace c) eqn:Hc; simpl.
  - rewrite IHt. split; reflexivity.
  - assert (Hw : String c (collapse_runs false s) =
                 join " " (if starts_word s
                           then match split s with
                                | w :: ws => String c w :: ws
                                | [] => [String c ""]
                                end
                           else String c "" :: split s)).
    { rewrite IHf. destruct (starts_word s) eqn:Hsw.
      - destruct (split s) as [|w ws]; [reflexivity|].
        now rewrite join_cons_char.
      - destruct s as [|d s]; [reflexivity|].
        destruct (split (String d s)) as [|w ws] eqn:Hsp.
        + apply split_nil in Hsp. rewrite Hs' in Hsp. discriminate.
        + reflexivity. }
    split; exact Hw.
Qed.

Lemma compact_words s :
  join " " (split (strip s)) = collapse_runs false (strip s).
Proof.
  assert (Hr : rstrip (strip s) = strip s) by apply rstrip_idem.
  destruct (join_split_collapse (strip s) Hr) as [_ H]. rewrite H.
  unfold strip in *. destruct (lstrip_head s) as [E|E].
  - rewrite E. reflexivity.
  - apply rstrip_starts in E. now rewrite E.
Qed.

End CompactFacts.

(* ===================================================================== *)
(** ** Tactics for the leaves of a run *)
(* ===================================================================== *)

(** At a leaf: the values the run decoded are the values of the
    hypotheses. *)
Ltac sync :=
  subst;
  repeat match goal with
         | H : loads _ = _ |- _ => unfold loads in H
         | H1 : json_loads ?s = _, H2 : context [json_loads ?s] |- _ =>
             rewrite H1 in H2
         | H : inl _ = inl _ |- _ => injection H as H; subst
         | H : inr _ = inr _ |- _ => injection H as H; subst
         | H : JDict _ = JDict _ |- _ => injection H as H; subst
         | H : inl _ = inr _ |- _ => discriminate H
         | H : inr _ = inl _ |- _ => discriminate H
         | H1 : py_get ?r ?k = _, H2 : py_get ?r ?k = _ |- _ =>
             rewrite H1 in H2
         | H1 : selected_payload ?a = _, H2 : py_or (_ (JDict ?a) _) _ = _ |- _ =>
             unfold selected_payload, payload_keys in H1;
             change Tinyfish.map_lookup with Resend.map_lookup in H2;
             rewrite H1 in H2
         end.

(** Opens the hypothesis that the document was read. *)
Ltac open_reads :=
  match goal with
  | H : reads _ _ _ |- _ =>
      let request := fresh "request" in
      destruct H as (Hblank & request & Hdoc & Happroval & Hpayload)
  end.

Ltac facts :=
  repeat match goal with
         | H : negb _ = true |- _ => apply negb_true_iff in H
         | H : negb _ = false |- _ => apply negb_false_iff in H
         | H : _ && _ = true |- _ => apply andb_true_iff in H; destruct H
         | H : _ && _ = false |- _ => apply andb_false_iff in H; destruct H
         | H : PyStr.nonempty _ = false |- _ => apply StrFacts.nonempty_false in H
         | H : PyStr.nonempty _ = true |- _ => apply StrFacts.nonempty_true in H
         end.


(* ===================================================================== *)
(** ** The reducers return *)
(* ===================================================================== *)

Section Reducers.
Context {P : Platform}.

Lemma loads_raises s e : loads s = inr e -> exists msg, e = JSONDecodeError msg.
Proof. unfold loads. destruct (json_loads s); intros H; inversion H; eauto. Qed.




End Reducers.

(* ===================================================================== *)
(** ** Claims *)
(* ===================================================================== *)

Section Claims.
Context {P : Platform}.

(** C4.  [is_async_action] answers true if and only if one of the three
    triggers holds: the action type is the sentinel [tinyfish_async] up to
    case, the payload carries the boolean [true] under [async], or the
    payload's [mode] is [async] up to case; it answers false exactly when
    none holds.  The action type and the mode are read through the
    script's string coercion [trim]. *)
Theorem is_async_action_triggers (action_type : string) (payload : dict) :
  let by_type := eq_nocase (Tinyfish.trim (JStr action_type)) "tinyfish_async" in
  let by_flag := PyDict.get payload "async" = JBool true in
  let by_mode := eq_nocase (Tinyfish.trim (PyDict.get payload "mode")) "async" in
  (Tinyfish.is_async_action action_type payload = true
     <-> by_type = true \/ by_flag \/ by_mode = true)
  /\ (Tinyfish.is_async_action action_type payload = false
     <-> by_type = false /\ ~ by_flag /\ by_mode = false).
Proof.
  unfold Tinyfish.is_async_action, eq_nocase.
  change (PyStr.lower "tinyfish_async") with "tinyfish_async".
  change (PyStr.lower "async") with "async".
  cbv zeta.
  destruct (String.eqb (PyStr.lower (Tinyfish.trim (JStr action_type))) _).
  - split; split; intros; auto; try discriminate. tauto.
  - destruct (PyDict.get payload "async") as [| [|] | | | | |] eqn:Hflag.
    all: destruct (String.eqb (PyStr.lower (Tinyfish.trim (PyDict.get payload "mode"))) _).
    all: split; split; intros; auto; try discriminate.
    all: try tauto.
    all: try (repeat split; auto; discriminate).
    all: try (intuition (auto; discriminate)).
Qed.

End Claims.

Section StatusClaim.
Context {P : Platform}.




(** X19.  When [urlopen] raises [HTTPError], which urllib does for a status
    outside [200,300), the run fails whatever the code. *)
Lemma http_error_fails (a : adapter) (w : world) (call : http_call)
    (code : Z) (body : string) :
  requests (run_of a w) = [call] ->
  provider w call = RaisesHTTPError code body ->
  failed (run_of a w).
Proof.
  unfold failed. destruct a; unfold run_of.
  - run_resend; intros Hreq Hprov; simpl in Hreq; try discriminate Hreq;
      injection Hreq as <-.
    all: try match goal with
             | H : provider _ _ = Responds _ _ |- _ =>
                 rewrite Hprov in H; discriminate H
             end.
    all: split; reflexivity.
  - run_tinyfish; intros Hreq Hprov; simpl in Hreq; try discriminate Hreq;
      injection Hreq as <-.
    all: try match goal with
             | H : provider _ _ = Responds _ _ |- _ =>
                 rewrite Hprov in H; discriminate H
             end.
    all: split; reflexivity.
Qed.

End StatusClaim.

Section ErrorsClaim.
Context {P : Platform}.
Import StrFacts.


Lemma get_set_other d k v k' :
  String.eqb k k' = false -> PyDict.get (PyDict.set d k v) k' = PyDict.get d k'.
Proof.
  intros Hk. unfold PyDict.get. induction d as [|[k0 v0] d IH]; simpl.
  - now rewrite Hk.
  - destruct (String.eqb k0 k) eqn:E0; simpl.
    + apply String.eqb_eq in E0. subst k0. now rewrite Hk.
    + destruct (String.eqb k0 k'); auto.
Qed.

Lemma get_set_same d k v : PyDict.get (PyDict.set d k v) k = v.
Proof.
  unfold PyDict.get. induction d as [|[k0 v0] d IH]; simpl.
  - now rewrite String.eqb_refl.
  - destruct (String.eqb k0 k) eqn:E0; simpl; rewrite E0; auto.
Qed.





(** A payload without [to] and an approval without action target miss the
    recipient. *)
Lemma no_to_no_target w approval payload :
  PyDict.find payload "to" = None ->
  Resend.map_lookup (JDict approval) target_keys = JNull ->
  missing Email MissingRecipient w approval payload.
Proof.
  intros Hto Htarget. unfold missing, approval_text, PyDict.get.
  rewrite Hto, Htarget. split; reflexivity.
Qed.

End ErrorsClaim.

Section BodyClaims.
Context {P : Platform}.
Import StrFacts.

(** The email adapter reads the whole body of the answer, on both paths. *)
Lemma email_reads_whole_body (w : world) (call : http_call) (status : Z)
    (body : string) :
  requests (Resend.run w) = [call] ->
  provider w call = Responds status body
  \/ provider w call = RaisesHTTPError status body ->
  bytes_read (Resend.run w) = String.length body.
Proof.
  revert call status body.
  run_resend; intros call0 status1 body1 Hreq Hprov;
    cbn [process_of bytes_read requests sent consumed wrote_err wrote_out
         took called quiet chunk Nat.add app] in *;
    try discriminate Hreq.
  all: injection Hreq as <-.
  all: match goal with
       | H : provider _ _ = _ |- _ => rewrite H in Hprov
       end.
  all: destruct Hprov as [Hp|Hp]; try discriminate Hp; injection Hp as <- <-.
  all: subst; reflexivity.
Qed.

(** C3, as the code has it.  A run of the automation adapter reads at most
    [MAX_BODY_BYTES] (131072) bytes of the provider's response body, on
    the success path and on the HTTP-error path alike.  A run of the email
    adapter reads the whole body on both paths. *)
Theorem response_bytes_read (w : world) :
  bytes_read (Tinyfish.run w) <= Tinyfish.MAX_BODY_BYTES
  /\ (forall call status body,
        requests (Resend.run w) = [call] ->
        provider w call = Responds status body
        \/ provider w call = RaisesHTTPError status body ->
        bytes_read (Resend.run w) = String.length body).
Proof.
  split.
  - run_tinyfish; cbn [process_of bytes_read consumed wrote_err wrote_out
                       took called quiet chunk Nat.add];
      try apply Nat.le_0_l; apply take_length.
  - apply email_reads_whole_body.
Qed.

(** C9, as the code has it.  When the value the script selects for the
    payload ([payload], or [Payload] when [payload] is absent) is truthy
    and not a mapping, the run of either adapter fails with the
    payload-must-be-a-JSON-object diagnostic and exit code 1, before any
    request. *)
Theorem truthy_non_mapping_payload_rejected (a : adapter) (w : world)
    (request : json) (approval : dict) (v : json) :
  PyStr.strip (stdin w) <> "" ->
  json_loads (stdin w) = inl request ->
  py_get request "action_approval" = inl (JDict approval) ->
  Resend.map_lookup (JDict approval) payload_keys = v ->
  truthy v = true ->
  is_dict v = false ->
  exit_code (run_of a w) = 1%Z
  /\ err (run_of a w) = payload_error a ++ PyStr.LF
  /\ out (run_of a w) = ""
  /\ requests (run_of a w) = [].
Proof.
  intros Hblank Hdoc Happroval Hv Htruthy Hnot.
  unfold payload_keys in Hv. subst v.
  assert (Hsel : py_or (Resend.map_lookup (JDict approval) ["payload"; "Payload"])
                   (JDict [])
                 = Resend.map_lookup (JDict approval) ["payload"; "Payload"]).
  { unfold py_or. rewrite Htruthy. reflexivity. }
  destruct a; unfold run_of.
  - run_resend; sync.
    all: try (apply negb_true_iff, nonempty_false in Heqb; contradiction).
    all: try discriminate.
    all: try match goal with
             | H : py_or _ _ = JDict _ |- _ =>
                 rewrite Hsel in H; rewrite H in Hnot; discriminate Hnot
             end.
    all: repeat split; reflexivity.
  - run_tinyfish; sync.
    all: try (apply negb_true_iff, nonempty_false in Heqb; contradiction).
    all: try discriminate.
    all: change Tinyfish.map_lookup with Resend.map_lookup in *.
    all: try match goal with
             | H : py_or _ _ = JDict _ |- _ =>
                 rewrite Hsel in H; rewrite H in Hnot; discriminate Hnot
             end.
    all: repeat split; reflexivity.
Qed.


Lemma or_else_nil b : PyStr.or_else "" b = b.
Proof. reflexivity. Qed.

Lemma set_text_other body key value k' :
  String.eqb key k' = false ->
  PyDict.get (Resend.set_text body key value) k' = PyDict.get body k'.
Proof.
  intros Hk. unfold Resend.set_text.
  destruct (PyStr.nonempty value); [now apply get_set_other|reflexivity].
Qed.

Lemma set_list_other body key values k' :
  String.eqb key k' = false ->
  PyDict.get (Resend.set_list body key values) k' = PyDict.get body k'.
Proof.
  intros Hk. unfold Resend.set_list.
  destruct (Resend.is_nil values); [reflexivity|now apply get_set_other].
Qed.

Lemma keep_headers (body : dict) (h : json) k :
  String.eqb "headers" k = false ->
  PyDict.get (match h with
              | JDict _ => PyDict.set body "headers" h
              | _ => body
              end) k = PyDict.get body k.
Proof. intros Hk. destruct h; try reflexivity. now apply get_set_other. Qed.

Lemma keep_tags (body : dict) (h : json) k :
  String.eqb "tags" k = false ->
  PyDict.get (match h with
              | JList _ => PyDict.set body "tags" h
              | _ => body
              end) k = PyDict.get body k.
Proof. intros Hk. destruct h; try reflexivity. now apply get_set_other. Qed.

Lemma keep_reply_to (body : dict) (h : json) k :
  String.eqb "reply_to" k = false ->
  PyDict.get (match h with
              | JStr s =>
                  if PyStr.nonempty (PyStr.strip s)
                  then PyDict.set body "reply_to" (JStr (PyStr.strip s))
                  else body
              | JList _ =>
                  Resend.set_list body "reply_to" (Resend.normalize_recipients h)
              | _ => body
              end) k = PyDict.get body k.
Proof.
  intros Hk. destruct h; try reflexivity.
  - destruct (PyStr.nonempty _); [now apply get_set_other|reflexivity].
  - now apply set_list_other.
Qed.



End BodyClaims.

Section ScenarioClaim.
Context {P : Platform}.
Import StrFacts Worlds.

(** C5, as the code has it.  In scenario A (the document of the scenario
    on standard input, the provider answering 201 with the body
    [{"id":"em_123"}]) the run of the email adapter writes to standard
    output exactly the line [line_A], the object with the fields [message]
    and [plugin] as [json.dumps] prints it, with a space after each colon
    and comma, and ends with exit code 0 and nothing on standard error. *)
Theorem scenario_A_output (w : world) (call : http_call) (body : string) :
  stdin w = stdin_A ->
  json_loads stdin_A = inl document_A ->
  requests (Resend.run w) = [call] ->
  provider w call = Responds 201 body ->
  utf8_decode body = body_A ->
  json_loads body_A = inl (JDict [("id", JStr "em_123")]) ->
  out (Resend.run w) = line_A ++ PyStr.LF
  /\ exit_code (Resend.run w) = 0%Z
  /\ err (Resend.run w) = "".
Proof.
  intros Hstdin Hdoc Hreq Hprov Hdecode Hbody. revert Hreq.
  run_resend; cbn [process_of requests sent wrote_err wrote_out took called
                   quiet app]; intros Hreq; try discriminate Hreq.
  all: injection Hreq as <-.
  all: match goal with
       | H : provider _ _ = _ |- _ =>
           rewrite H in Hprov; try discriminate Hprov; injection Hprov as -> ->
       end.
  all: subst; cbn [fst snd chunk] in *; try discriminate.
  unfold loads in Heqe. rewrite Hstdin, Hdoc in Heqe. injection Heqe as <-.
  vm_compute in Heqe0. injection Heqe0 as <-.
  vm_compute in Heqj1. injection Heqj1 as <-.
  rewrite Hdecode. unfold Resend.response_id, loads. rewrite Hbody.
  vm_compute. auto.
Qed.
End ScenarioClaim.

Section OutcomeClaim.
Context {P : Platform}.
Import StrFacts LineFacts.





End OutcomeClaim.

Section ReducerClaim.
Context {P : Platform}.
Import StrFacts CompactFacts.





End ReducerClaim.

Section GoalClaim.
Context {P : Platform}.
Import StrFacts.

Lemma trim_stripped v : PyStr.strip (Tinyfish.trim v) = Tinyfish.trim v.
Proof.
  unfold Tinyfish.trim. destruct (is_none v); [reflexivity|apply strip_idem].
Qed.

Lemma trim_str s : Tinyfish.trim (JStr s) = PyStr.strip s.
Proof. reflexivity. Qed.

(** The three sources of the goal, in order. *)
Lemma goal_chain summary payload :
  let g1 := Tinyfish.trim (PyDict.get payload "goal") in
  let g2 := Tinyfish.trim (PyDict.get payload "task") in
  Tinyfish.first_non_empty [g1; g2; summary]
  = (if PyStr.nonempty g1 then g1
     else if PyStr.nonempty g2 then g2 else PyStr.strip summary)
  /\ PyStr.strip (Tinyfish.first_non_empty [g1; g2; summary])
     = Tinyfish.first_non_empty [g1; g2; summary].
Proof.
  cbv zeta. unfold Tinyfish.first_non_empty. rewrite !trim_str, !trim_stripped.
  destruct (PyStr.nonempty (Tinyfish.trim (PyDict.get payload "goal"))).
  - split; [reflexivity|apply trim_stripped].
  - destruct (PyStr.nonempty (Tinyfish.trim (PyDict.get payload "task"))).
    + split; [reflexivity|apply trim_stripped].
    + destruct (PyStr.nonempty (PyStr.strip summary)) eqn:E.
      * split; [reflexivity|apply strip_idem].
      * apply nonempty_false in E. rewrite E. split; reflexivity.
Qed.

(** C7, as the code has it.  The goal resolves to the first non-empty of
    [payload.goal], [payload.task] and the approval's summary, each read
    through the string coercion; there is no further source: when all
    three are empty the goal is empty and, unless [payload.request.goal]
    is given, [build_request] raises.  When the goal and the action target
    are not empty and the goal does not contain the target, compared
    without regard to case, the line [Target URL: <target>] is appended.
    In the request that is built, a non-empty [payload.request.goal] is
    kept as it is; otherwise the goal is the resolved one. *)
Theorem goal_resolution (summary action_target : string) (payload : dict) :
  let goal :=
    Tinyfish.first_non_empty
      [Tinyfish.trim (PyDict.get payload "goal");
       Tinyfish.trim (PyDict.get payload "task"); summary] in
  let target := PyStr.strip action_target in
  let given := Tinyfish.map_string (JDict (Tinyfish.request_part payload)) "goal" in
  Tinyfish.resolve_goal summary action_target payload
  = (if PyStr.nonempty goal && PyStr.nonempty target
        && negb (PyStr.contains (PyStr.lower target) (PyStr.lower goal))
     then goal ++ PyStr.LF ++ "Target URL: " ++ target
     else goal)
  /\ (goal = "" -> given = "" ->
      Tinyfish.build_request summary action_target payload
      = inr (ValueError
               "tinyfish action requires payload.goal, payload.task, or summary"))
  /\ (forall body,
        Tinyfish.build_request summary action_target payload = inl body ->
        PyDict.get body "goal"
        = (if PyStr.nonempty given
           then PyDict.get (Tinyfish.request_part payload) "goal"
           else JStr (Tinyfish.resolve_goal summary action_target payload))).
Proof.
  cbv zeta.
  destruct (goal_chain summary payload) as [Hchain Hstripped]. cbv zeta in *.
  assert (Hres :
    Tinyfish.resolve_goal summary action_target payload
    = (if PyStr.nonempty (Tinyfish.first_non_empty
                            [Tinyfish.trim (PyDict.get payload "goal");
                             Tinyfish.trim (PyDict.get payload "task"); summary])
          && PyStr.nonempty (PyStr.strip action_target)
          && negb (PyStr.contains (PyStr.lower (PyStr.strip action_target))
                     (PyStr.lower (Tinyfish.first_non_empty
                            [Tinyfish.trim (PyDict.get payload "goal");
                             Tinyfish.trim (PyDict.get payload "task"); summary])))
       then Tinyfish.first_non_empty
              [Tinyfish.trim (PyDict.get payload "goal");
               Tinyfish.trim (PyDict.get payload "task"); summary]
            ++ PyStr.LF ++ "Target URL: " ++ PyStr.strip action_target
       else Tinyfish.first_non_empty
              [Tinyfish.trim (PyDict.get payload "goal");
               Tinyfish.trim (PyDict.get payload "task"); summary])).
  { set (goal := Tinyfish.first_non_empty _) in *.
    unfold Tinyfish.resolve_goal. cbv zeta. rewrite !trim_str.
    replace (if negb (PyStr.nonempty
                        (if negb (PyStr.nonempty (Tinyfish.trim (PyDict.get payload "goal")))
                         then Tinyfish.trim (PyDict.get payload "task")
                         else Tinyfish.trim (PyDict.get payload "goal")))
             then PyStr.strip summary
             else if negb (PyStr.nonempty (Tinyfish.trim (PyDict.get payload "goal")))
                  then Tinyfish.trim (PyDict.get payload "task")
                  else Tinyfish.trim (PyDict.get payload "goal"))
      with goal.
    2:{ rewrite Hchain.
        destruct (PyStr.nonempty (Tinyfish.trim (PyDict.get payload "goal"))) eqn:E1;
          cbn [negb]; rewrite ?E1; cbn [negb]; [reflexivity|].
        destruct (PyStr.nonempty (Tinyfish.trim (PyDict.get payload "task")));
          reflexivity. }
    destruct (PyStr.nonempty goal) eqn:Eg; cbn [andb]; [|exact Hstripped].
    destruct (PyStr.nonempty (PyStr.strip action_target)) eqn:Et; cbn [andb];
      [|exact Hstripped].
    destruct (negb (PyStr.contains _ _)); [|exact Hstripped].
    apply nonempty_true in Eg, Et.
    apply (strip_glue goal (PyStr.LF ++ "Target URL: ") (PyStr.strip action_target));
      auto using strip_idem. }
  split; [exact Hres|]. split.
  - intros Hgoal Hgiven. unfold Tinyfish.build_request. cbv zeta.
    rewrite Hgiven, Hres, Hgoal. reflexivity.
  - intros body. unfold Tinyfish.build_request. cbv zeta.
    destruct (PyStr.nonempty (Tinyfish.map_string _ "goal")) eqn:Eg; cbn [negb bindE].
    + destruct (negb (PyStr.nonempty (Tinyfish.resolve_url _ _ _)));
        intros H; inversion H.
      now rewrite get_set_other by reflexivity.
    + destruct (negb (PyStr.nonempty (Tinyfish.resolve_goal _ _ _)));
        cbn [bindE]; [discriminate|].
      destruct (negb (PyStr.nonempty (Tinyfish.resolve_url _ _ _)));
        intros H; inversion H.
      rewrite get_set_other by reflexivity. apply get_set_same.
Qed.

End GoalClaim.

(* ===================================================================== *)
(** ** Where the scripts raise *)
(* ===================================================================== *)

Section Raises.
Context {P : Platform}.
Import StrFacts.

(** X12.  [parse_error_message] asks [decoded.get] of whatever [json.loads]
    returned: on JSON that is not an object it raises [AttributeError].
    [summarize_response] tests [isinstance(decoded, dict)] first. *)
Lemma parse_error_message_raises (raw : string) (decoded : json) :
  PyStr.strip raw <> "" ->
  json_loads (PyStr.strip raw) = inl decoded ->
  is_dict decoded = false ->
  Tinyfish.parse_error_message raw
  = inr (AttributeError "object has no attribute 'get'").
Proof.
  intros Hne Hj Hd. apply nonempty_true in Hne.
  unfold Tinyfish.parse_error_message, loads.
  change (Tinyfish.trim (JStr raw)) with (PyStr.strip raw).
  cbv zeta. rewrite Hne, Hj. cbn [negb].
  destruct decoded; try reflexivity. discriminate Hd.
Qed.

(** X22.  Both scripts ask [request.get] of the decoded document: when it is not
    an object, [main] raises, having written nothing and issued nothing. *)
Lemma main_raises_on_non_object (a : adapter) (w : world) (document : json) :
  PyStr.strip (stdin w) <> "" ->
  json_loads (stdin w) = inl document ->
  is_dict document = false ->
  uncaught (run_of a w) = Some (AttributeError "object has no attribute 'get'")
  /\ out (run_of a w) = ""
  /\ err (run_of a w) = ""
  /\ requests (run_of a w) = []
  /\ exit_code (run_of a w) = 1%Z.
Proof.
  intros Hne Hj Hd.
  destruct a; unfold run_of; [run_resend|run_tinyfish]; sync.
  all: try (apply negb_true_iff, nonempty_false in Heqb; contradiction).
  all: match goal with
       | H : is_dict ?d = false |- _ => destruct d; try discriminate H
       end.
  all: try discriminate.
  all: match goal with
       | H : py_get _ _ = inr _ |- _ => injection H as <-
       end.
  all: repeat split; reflexivity.
Qed.

(** X18.  A run issues at most one request, and a run that succeeds issued
    one. *)
Lemma at_most_one_request (a : adapter) (w : world) :
  length (requests (run_of a w)) <= 1
  /\ (exit_code (run_of a w) = 0%Z -> length (requests (run_of a w)) = 1).
Proof.
  destruct a; unfold run_of; [run_resend|run_tinyfish];
    cbn [process_of requests exit_code sent wrote_err wrote_out took called
         quiet app length];
    split; auto; intros H; try reflexivity; discriminate H.
Qed.

End Raises.

(* ===================================================================== *)
(** ** Further properties: the helpers *)
(* ===================================================================== *)

Section HelperProperties.
Context {P : Platform}.
Import StrFacts LineFacts CompactFacts.

Lemma str_or_empty_stripped v :
  PyStr.strip (Resend.str_or_empty v) = Resend.str_or_empty v.
Proof.
  unfold Resend.str_or_empty. destruct (is_none v); [reflexivity|apply strip_idem].
Qed.

Lemma normalize_recipients_member value r :
  In r (Resend.normalize_recipients value) -> r <> "" /\ PyStr.strip r = r.
Proof.
  destruct value; simpl; try contradiction.
  - rewrite in_map_iff. intros (x & <- & Hx).
    apply filter_In in Hx. destruct Hx as [_ Hx].
    apply nonempty_true in Hx. split; [exact Hx|apply strip_idem].
  - rewrite in_map_iff. intros (x & <- & Hx).
    apply filter_In in Hx. destruct Hx as [_ Hx].
    apply nonempty_true in Hx. split; [exact Hx|apply str_or_empty_stripped].
Qed.

Lemma normalize_clean_list (l : list string) :
  (forall r, In r l -> r <> "" /\ PyStr.strip r = r) ->
  Resend.normalize_recipients (JList (map JStr l)) = l.
Proof.
  induction l as [|r l IH]; intros H; [reflexivity|].
  destruct (H r (or_introl eq_refl)) as [Hne Hs].
  assert (Hr : Resend.str_or_empty (JStr r) = r) by exact Hs.
  cbn [Resend.normalize_recipients map filter].
  rewrite Hr. apply nonempty_true in Hne. rewrite Hne.
  cbn [map]. rewrite Hr. f_equal.
  apply IH. intros r' Hr'. apply H. now right.
Qed.

(** X1.  [normalize_recipients] gives addresses that are not empty and carry no
    surrounding whitespace, and it leaves such a list as it is: normalizing
    twice is normalizing once. *)
Theorem normalize_recipients_idempotent (value : json) :
  (forall r, In r (Resend.normalize_recipients value) ->
             r <> "" /\ PyStr.strip r = r)
  /\ Resend.normalize_recipients
       (JList (map JStr (Resend.normalize_recipients value)))
     = Resend.normalize_recipients value.
Proof.
  split.
  - apply normalize_recipients_member.
  - apply normalize_clean_list, normalize_recipients_member.
Qed.

Lemma is_lf_isspace c : is_lf c = true -> PyStr.isspace c = true.
Proof.
  unfold is_lf, PyStr.isspace. intros H. apply N.eqb_eq in H. now rewrite H.
Qed.

Lemma no_lf_collapse in_run s : no_lf (collapse_runs in_run s) = true.
Proof.
  revert in_run. induction s as [|c s IH]; intros in_run; [reflexivity|].
  simpl. destruct (PyStr.isspace c) eqn:Hc.
  - destruct in_run; simpl; auto.
  - simpl. rewrite IH, andb_true_r.
    destruct (is_lf c) eqn:E; [|reflexivity].
    apply is_lf_isspace in E. congruence.
Qed.

Lemma no_lf_substring n s : no_lf s = true -> no_lf (String.substring 0 n s) = true.
Proof.
  revert s. induction n as [|n IH]; intros [|c s]; simpl; auto.
  intros H. apply andb_true_iff in H. destruct H as [H1 H2].
  now rewrite H1, IH.
Qed.

Lemma compact_is_reduced value : Tinyfish.compact value = reduced_raw value.
Proof.
  unfold Tinyfish.compact, reduced_raw. cbv zeta. now rewrite compact_words.
Qed.

Lemma compact_no_lf value : no_lf (Tinyfish.compact value) = true.
Proof.
  rewrite compact_is_reduced.
  unfold reduced_raw. cbv zeta. destruct (Nat.leb _ 1200).
  - apply no_lf_collapse.
  - rewrite no_lf_app. unfold PyStr.take.
    rewrite no_lf_substring by apply no_lf_collapse. reflexivity.
Qed.

(** X7.  [compact] collapses every run of whitespace of the stripped text to
    one space and cuts at 1200 characters: its result has no line break
    and at most 1203 characters. *)
Theorem compact_single_line (value : string) :
  Tinyfish.compact value = reduced_raw value
  /\ no_lf (Tinyfish.compact value) = true
  /\ String.length (Tinyfish.compact value) <= 1203.
Proof.
  split; [apply compact_is_reduced|]. split; [apply compact_no_lf|].
  rewrite compact_is_reduced.
  - unfold reduced_raw. cbv zeta.
    destruct (Nat.leb _ 1200) eqn:E.
    + apply Nat.leb_le in E. lia.
    + rewrite length_app.
      pose proof (take_length 1200 (collapse_runs false (PyStr.strip value))).
      change (String.length "...") with 3. lia.
Qed.

Lemma probe_found decoded keys found :
  Resend.probe decoded keys = Some found ->
  found <> "" /\ PyStr.strip found = found.
Proof.
  induction keys as [|key rest IH]; simpl; [discriminate|].
  destruct (PyDict.get decoded key) as [ | | | |value| |value]; auto.
  - destruct (PyStr.nonempty (PyStr.strip value)) eqn:E; auto.
    intros H. injection H as <-. apply nonempty_true in E.
    split; [exact E|apply strip_idem].
  - destruct (PyDict.get value "message") as [ | | | |nested| | ]; auto.
    destruct (PyStr.nonempty (PyStr.strip nested)) eqn:E; auto.
    intros H. injection H as <-. apply nonempty_true in E.
    split; [exact E|apply strip_idem].
Qed.

(** X3.  What [parse_message] returns carries no surrounding whitespace, and it
    is empty only for a body that is blank. *)
Theorem parse_message_stripped (body message : string) :
  Resend.parse_message body = inl message ->
  PyStr.strip message = message
  /\ (message = "" -> PyStr.strip body = "").
Proof.
  unfold Resend.parse_message.
  destruct (PyStr.nonempty body) eqn:Hb; cbn [negb].
  - destruct (loads body) as [[ | | | | | |decoded]|[msg|msg|msg|code b|msg]];
      try (intros H; injection H as <-; split; [apply strip_idem|auto]);
      try discriminate.
    destruct (Resend.probe decoded _) as [found|] eqn:Hp;
      intros H; injection H as <-.
    + destruct (probe_found _ _ _ Hp) as [Hne Hs]. split; [exact Hs|].
      intros E. contradiction.
    + split; [apply strip_idem|auto].
  - intros H. injection H as <-. apply nonempty_false in Hb. subst body.
    split; reflexivity.
Qed.

End HelperProperties.

Section MoreHelperProperties.
Context {P : Platform}.
Import StrFacts LineFacts CompactFacts.

Lemma split_on_plain sep r :
  mentions sep r = false -> PyStr.split_on sep r = [r].
Proof.
  induction r as [|c r IH]; simpl; [reflexivity|].
  intros H. apply orb_false_iff in H. destruct H as [Hc Hr].
  rewrite Hc, IH by exact Hr. reflexivity.
Qed.

Lemma split_on_app sep r rest :
  mentions sep r = false ->
  PyStr.split_on sep (r ++ String sep rest) = r :: PyStr.split_on sep rest.
Proof.
  induction r as [|c r IH]; simpl.
  - intros _. now rewrite Ascii.eqb_refl.
  - intros H. apply orb_false_iff in H. destruct H as [Hc Hr].
    rewrite Hc, IH by exact Hr. reflexivity.
Qed.

Lemma mentions_app ch a b : mentions ch (a ++ b) = mentions ch a || mentions ch b.
Proof. induction a as [|c a IH]; simpl; [reflexivity|]. now rewrite IH, orb_assoc. Qed.

Lemma join_head sep p a l :
  PyStr.join sep ((p ++ a) :: l) = p ++ PyStr.join sep (a :: l).
Proof. destruct l; simpl; [reflexivity|]. now rewrite app_assoc. Qed.

Lemma split_on_join pad r l :
  mentions "," pad = false ->
  mentions "," r = false ->
  (forall x, In x l -> mentions "," x = false) ->
  PyStr.split_on "," (PyStr.join (String "," pad) (r :: l))
  = r :: map (append pad) l.
Proof.
  intros Hpad. revert r. induction l as [|x l IH]; intros r Hr Hl.
  - simpl. now apply split_on_plain.
  - change (PyStr.join (String "," pad) (r :: x :: l))
      with (r ++ String "," (pad ++ PyStr.join (String "," pad) (x :: l))).
    rewrite split_on_app by exact Hr.
    rewrite <- join_head, IH.
    + reflexivity.
    + rewrite mentions_app, Hpad. apply Hl. now left.
    + intros y Hy. apply Hl. now right.
Qed.

Lemma normalize_joined pad l :
  mentions "," pad = false ->
  (forall x, PyStr.strip (pad ++ x) = PyStr.strip x) ->
  (forall r, In r l -> clean_address r) ->
  Resend.normalize_recipients (JStr (PyStr.join (String "," pad) l)) = l.
Proof.
  intros Hpad Hstrip Hl. destruct l as [|r l]; [reflexivity|].
  cbn [Resend.normalize_recipients].
  rewrite split_on_join; [|exact Hpad|apply Hl; now left|intros; apply Hl; now right].
  destruct (Hl r (or_introl eq_refl)) as (Hne & Hs & _).
  cbn [filter map]. rewrite Hs. apply nonempty_true in Hne. rewrite Hne.
  cbn [map]. rewrite Hs. f_equal.
  assert (Hrest : forall x, In x l -> clean_address x) by (intros; apply Hl; now right).
  clear - Hstrip Hrest. induction l as [|x l IH]; [reflexivity|].
  destruct (Hrest x (or_introl eq_refl)) as (Hne & Hs & _).
  cbn [map filter]. rewrite Hstrip, Hs.
  apply nonempty_true in Hne. rewrite Hne. cbn [map]. rewrite Hstrip, Hs.
  f_equal. apply IH. intros; apply Hrest; now right.
Qed.

(** X2.  A list of addresses (not empty, stripped, without a comma) that is
    joined with commas, or with a comma and a space as the success message
    of the email adapter writes it, is read back by [normalize_recipients]
    as the same list. *)
Theorem recipients_round_trip (l : list string) :
  (forall r, In r l -> clean_address r) ->
  Resend.normalize_recipients (JStr (PyStr.join "," l)) = l
  /\ Resend.normalize_recipients (JStr (PyStr.join ", " l)) = l.
Proof.
  intros Hl. split.
  - apply (normalize_joined "" l); auto.
  - apply (normalize_joined " " l); auto.
Qed.

Lemma trim_of_str v : Tinyfish.trim (JStr v) = PyStr.strip v.
Proof. reflexivity. Qed.

(** X8.  [first_non_empty] returns the first of its arguments that is not
    blank, stripped; it returns the empty string exactly when every
    argument is blank. *)
Theorem first_non_empty_first (values : list string) :
  (Tinyfish.first_non_empty values = ""
   <-> Forall (fun v => PyStr.strip v = "") values)
  /\ (Tinyfish.first_non_empty values <> "" ->
      exists blank v rest,
        values = (blank ++ v :: rest)%list
        /\ Forall (fun x => PyStr.strip x = "") blank
        /\ PyStr.strip v <> ""
        /\ Tinyfish.first_non_empty values = PyStr.strip v).
Proof.
  induction values as [|v values [IH1 IH2]].
  - split; [split; auto|]. intros H. now contradiction H.
  - cbn [Tinyfish.first_non_empty]. cbv zeta. rewrite trim_of_str.
    destruct (PyStr.nonempty (PyStr.strip v)) eqn:E.
    + apply nonempty_true in E. split.
      * split; [intros H; contradiction|].
        intros H. inversion H; subst. contradiction.
      * intros _. exists [], v, values. repeat split; auto.
    + apply nonempty_false in E. split.
      * rewrite IH1. split; intros H; [constructor; auto|now inversion H].
      * intros H. destruct (IH2 H) as (blank & x & rest & -> & Hb & Hx & Hr).
        exists (v :: blank), x, rest. repeat split; auto.
Qed.

Lemma find_set_other d k v k' :
  String.eqb k k' = false ->
  PyDict.find (PyDict.set d k v) k' = PyDict.find d k'.
Proof.
  intros Hk. induction d as [|[k0 v0] d IH]; simpl.
  - now rewrite Hk.
  - destruct (String.eqb k0 k) eqn:E0; simpl.
    + apply String.eqb_eq in E0. subst k0. now rewrite Hk.
    + destruct (String.eqb k0 k'); auto.
Qed.

Lemma find_set_same d k v : PyDict.find (PyDict.set d k v) k = Some v.
Proof.
  induction d as [|[k0 v0] d IH]; simpl.
  - now rewrite String.eqb_refl.
  - destruct (String.eqb k0 k) eqn:E0; simpl; rewrite E0; auto.
Qed.

Lemma get_of_find d d' k :
  PyDict.find d k = PyDict.find d' k -> PyDict.get d k = PyDict.get d' k.
Proof. unfold PyDict.get. now intros ->. Qed.

Lemma resolve_goal_stripped summary action_target payload :
  PyStr.strip (Tinyfish.resolve_goal summary action_target payload)
  = Tinyfish.resolve_goal summary action_target payload.
Proof. unfold Tinyfish.resolve_goal. cbv zeta. rewrite trim_of_str. apply strip_idem. Qed.

Lemma resolve_url_after_goal action_target payload request_body goal :
  Tinyfish.resolve_url action_target payload (PyDict.set request_body "goal" goal)
  = Tinyfish.resolve_url action_target payload request_body.
Proof.
  unfold Tinyfish.resolve_url, Tinyfish.map_string. cbv zeta.
  now rewrite (get_of_find _ request_body "url") by (now apply find_set_other).
Qed.

(** X10.  Whenever [build_request] returns a body: its [goal] is not blank, and
    is the resolved goal when [payload.request] gave none; its [url] is the
    string that [resolve_url] chose, which is not empty; and every other
    field is the field of [payload.request], present or absent as
    there. *)
Theorem build_request_fields (summary action_target : string)
    (payload body : dict) :
  Tinyfish.build_request summary action_target payload = inl body ->
  Tinyfish.map_string (JDict body) "goal" <> ""
  /\ (Tinyfish.map_string (JDict (Tinyfish.request_part payload)) "goal" = "" ->
      PyDict.find body "goal"
      = Some (JStr (Tinyfish.resolve_goal summary action_target payload)))
  /\ PyDict.find body "url"
     = Some (JStr (Tinyfish.resolve_url action_target payload
                     (Tinyfish.request_part payload)))
  /\ Tinyfish.resolve_url action_target payload (Tinyfish.request_part payload)
     <> ""
  /\ (forall k, k <> "goal" -> k <> "url" ->
        PyDict.find body k = PyDict.find (Tinyfish.request_part payload) k).
Proof.
  unfold Tinyfish.build_request. cbv zeta.
  set (part := Tinyfish.request_part payload).
  destruct (PyStr.nonempty (Tinyfish.map_string (JDict part) "goal")) eqn:Hg;
    cbn [negb bindE].
  - destruct (PyStr.nonempty (Tinyfish.resolve_url action_target payload part))
      eqn:Hu; cbn [negb]; [|discriminate].
    intros H. injection H as <-.
    apply nonempty_true in Hg, Hu. repeat split.
    + unfold Tinyfish.map_string in *.
      now rewrite (get_of_find _ part "goal") by (now apply find_set_other).
    + intros E. contradiction.
    + apply find_set_same.
    + exact Hu.
    + intros k _ Hk. apply find_set_other. apply String.eqb_neq. congruence.
  - destruct (PyStr.nonempty (Tinyfish.resolve_goal summary action_target payload))
      eqn:Hr; cbn [negb bindE]; [|discriminate].
    rewrite resolve_url_after_goal.
    destruct (PyStr.nonempty (Tinyfish.resolve_url action_target payload part))
      eqn:Hu; cbn [negb]; [|discriminate].
    intros H. injection H as <-.
    apply nonempty_true in Hr, Hu. repeat split.
    + unfold Tinyfish.map_string, PyDict.get.
      rewrite find_set_other by reflexivity. rewrite find_set_same.
      rewrite trim_of_str, resolve_goal_stripped. exact Hr.
    + intros _. rewrite find_set_other by reflexivity. apply find_set_same.
    + apply find_set_same.
    + exact Hu.
    + intros k Hk1 Hk2.
      rewrite !find_set_other; auto; apply String.eqb_neq; congruence.
Qed.

Lemma trim_idem v : Tinyfish.trim (JStr (Tinyfish.trim v)) = Tinyfish.trim v.
Proof.
  rewrite trim_of_str. unfold Tinyfish.trim.
  destruct (is_none v); [reflexivity|apply strip_idem].
Qed.

(** X9.  [resolve_url] takes the first that is not blank of
    [payload.request.url], [payload.url] and the action target, as
    [first_non_empty] does of the three; what it returns is stripped. *)
Theorem resolve_url_order (action_target : string) (payload request_body : dict) :
  Tinyfish.resolve_url action_target payload request_body
  = Tinyfish.first_non_empty
      [Tinyfish.map_string (JDict request_body) "url";
       Tinyfish.trim (PyDict.get payload "url"); action_target]
  /\ PyStr.strip (Tinyfish.resolve_url action_target payload request_body)
     = Tinyfish.resolve_url action_target payload request_body.
Proof.
  unfold Tinyfish.resolve_url, Tinyfish.map_string, Tinyfish.first_non_empty.
  cbv zeta. rewrite !trim_idem.
  destruct (PyStr.nonempty (Tinyfish.trim (PyDict.get request_body "url"))).
  { split; [reflexivity|]. rewrite <- trim_idem at 2. apply trim_of_str. }
  destruct (PyStr.nonempty (Tinyfish.trim (PyDict.get payload "url"))).
  { split; [reflexivity|]. rewrite <- trim_idem at 2. apply trim_of_str. }
  rewrite trim_of_str. split; [|apply strip_idem].
  destruct (PyStr.nonempty (PyStr.strip action_target)) eqn:E; [reflexivity|].
  now apply nonempty_false in E.
Qed.




End MoreHelperProperties.

(* ===================================================================== *)
(** ** Further properties: the runs *)
(* ===================================================================== *)

Section NumberFacts.
Import StrFacts LineFacts.

Lemma digits_plain d : no_space (NilEmpty.string_of_uint d) = true.
Proof. induction d; simpl; auto. Qed.

Lemma str_of_Z_plain z :
  no_space (PyStr.str_of_Z z) = true /\ PyStr.str_of_Z z <> "".
Proof.
  unfold PyStr.str_of_Z, NilZero.string_of_int, NilZero.string_of_uint.
  destruct (Z.to_int z) as [d|d]; destruct d; simpl;
    try rewrite digits_plain; split; auto; discriminate.
Qed.

Lemma no_space_no_lf s : no_space s = true -> no_lf s = true.
Proof.
  induction s as [|c s IH]; simpl; auto.
  intros H. apply andb_true_iff in H. destruct H as [Hc Hs].
  rewrite IH, andb_true_r by exact Hs.
  destruct (is_lf c) eqn:E; [|reflexivity].
  apply is_lf_isspace in E. rewrite E in Hc. discriminate Hc.
Qed.

Lemma no_space_rstrip s : no_space s = true -> PyStr.rstrip s = s.
Proof.
  induction s as [|c s IH]; simpl; auto.
  intros H. apply andb_true_iff in H. destruct H as [Hc Hs].
  rewrite IH by exact Hs. apply negb_true_iff in Hc. rewrite Hc.
  destruct s; reflexivity.
Qed.

Lemma no_space_strip s : no_space s = true -> PyStr.strip s = s.
Proof.
  intros H. unfold PyStr.strip.
  assert (Hl : PyStr.lstrip s = s).
  { destruct s as [|c s]; [reflexivity|]. simpl in *.
    apply andb_true_iff in H. destruct H as [Hc _].
    apply negb_true_iff in Hc. now rewrite Hc. }
  rewrite Hl. now apply no_space_rstrip.
Qed.

Lemma no_lf_lstrip s : no_lf s = true -> no_lf (PyStr.lstrip s) = true.
Proof.
  induction s as [|c s IH]; simpl; auto.
  intros H. destruct (PyStr.isspace c); [|exact H].
  apply andb_true_iff in H. now apply IH.
Qed.

Lemma no_lf_rstrip s : no_lf s = true -> no_lf (PyStr.rstrip s) = true.
Proof.
  induction s as [|c s IH]; simpl; auto.
  intros H. apply andb_true_iff in H. destruct H as [Hc Hs].
  specialize (IH Hs). destruct (PyStr.rstrip s) eqn:E.
  - destruct (PyStr.isspace c); simpl; auto. now rewrite Hc.
  - change (negb (is_lf c) && no_lf (String a s0) = true). now rewrite Hc, IH.
Qed.

Lemma no_lf_strip s : no_lf s = true -> no_lf (PyStr.strip s) = true.
Proof. intros H. now apply no_lf_rstrip, no_lf_lstrip. Qed.

Lemma rstrip_char_idem ch s :
  PyStr.rstrip_char ch (PyStr.rstrip_char ch s) = PyStr.rstrip_char ch s.
Proof.
  induction s as [|c s IH]; simpl; auto.
  destruct (PyStr.rstrip_char ch s) as [|d r] eqn:Hr.
  - destruct (Ascii.eqb c ch) eqn:Hc; simpl; auto. now rewrite Hc.
  - change (PyStr.rstrip_char ch (String c (String d r)))
      with (match PyStr.rstrip_char ch (String d r) with
            | EmptyString =>
                if Ascii.eqb c ch then EmptyString else String c EmptyString
            | x => String c x
            end).
    now rewrite IH.
Qed.

End NumberFacts.

Section RunProperties.
Context {P : Platform}.
Import StrFacts LineFacts.

(** The status test of a leaf, as an inequality. *)
Ltac status_cases :=
  match goal with
  | H : (?s <? 200)%Z || (?s >=? 300)%Z = _ |- _ =>
      rewrite Z.geb_leb in H;
      destruct (Z.ltb_spec s 200); destruct (Z.leb_spec 300 s);
      simpl in H; try discriminate H
  end.

(** The request that [Request] built. *)
Ltac built :=
  match goal with
  | H : Request _ _ _ = inl _ |- _ =>
      unfold Request in H; destruct (request_error _); try discriminate H;
      injection H as <-
  end.

(** The text that [float] accepted. *)
Ltac floated :=
  match goal with
  | H : py_float _ = inl _ |- _ =>
      unfold py_float in H; destruct (float_error _); try discriminate H;
      injection H as <-
  end.

Ltac observe :=
  cbn [process_of uncaught exit_code out err requests bytes_read stdout stderr
       sent consumed wrote_err wrote_out took called quiet app In length
       Nat.add chunk] in *.

(** X17.  A run ends with exit code 0 only after the provider answered its one
    request with a status of [200,300). *)
Theorem success_needs_2xx (a : adapter) (w : world) :
  exit_code (run_of a w) = 0%Z ->
  exists status, answered w (run_of a w) status /\ (200 <= status < 300)%Z.
Proof.
  unfold answered.
  destruct a; unfold run_of; [run_resend|run_tinyfish]; observe;
    intros Hexit; try discriminate Hexit.
  all: match goal with
       | Hp : provider _ ?c = Responds ?s ?b |- _ =>
           exists s; split; [exists c, b; split; [reflexivity|exact Hp]|]
       end.
  all: subst; simpl in *; status_cases; lia.
Qed.

(** X16.  Every request of either adapter is a POST with the adapter's headers,
    a credential that is not empty, the timeout of the setting, and a URL
    made of the base URL without trailing slashes and the adapter's
    path. *)
Theorem request_envelope (a : adapter) (w : world) (call : http_call) :
  In call (requests (run_of a w)) ->
  method (target call) = "POST"
  /\ headers (target call) = request_headers a w
  /\ api_key a w <> ""
  /\ timeout call = timeout_setting a w
  /\ PyStr.rstrip_char "/" (base_url a w) = base_url a w
  /\ exists path,
       url (target call) = base_url a w ++ path
       /\ match a with
          | Email => path = "/emails"
          | Automation => exists async_mode, path = automation_path async_mode
          end.
Proof.
  destruct a; unfold run_of; [run_resend|run_tinyfish]; observe;
    intros Hin; try contradiction.
  all: destruct Hin as [<-|[]]; built; floated; cbn [target timeout method headers url].
  all: facts; subst.
  all: split; [reflexivity|]. all: split; [reflexivity|].
  all: split; [assumption|]. all: split; [reflexivity|].
  all: split; [apply rstrip_char_idem|].
  all: eexists; split; [reflexivity|]; try reflexivity.
  all: eexists; reflexivity.
Qed.

Lemma build_body_core payload from_value to_values subject text html k :
  String.eqb "headers" k = false -> String.eqb "tags" k = false ->
  String.eqb "reply_to" k = false -> String.eqb "bcc" k = false ->
  String.eqb "cc" k = false ->
  PyDict.get (Resend.build_body payload from_value to_values subject text html) k
  = PyDict.get
      (Resend.set_text
         (Resend.set_text
            [("from", JStr from_value); ("to", Resend.strings to_values);
             ("subject", JStr subject)] "text" text) "html" html) k.
Proof.
  intros H1 H2 H3 H4 H5. unfold Resend.build_body. cbv zeta.
  etransitivity; [apply keep_headers; exact H1|].
  etransitivity; [apply keep_tags; exact H2|].
  etransitivity; [apply keep_reply_to; exact H3|].
  now rewrite !set_list_other by assumption.
Qed.

Lemma build_body_from payload from_value to_values subject text html :
  PyDict.get (Resend.build_body payload from_value to_values subject text html)
    "from" = JStr from_value.
Proof.
  rewrite build_body_core by reflexivity.
  now rewrite !set_text_other by reflexivity.
Qed.

Lemma build_body_to payload from_value to_values subject text html :
  PyDict.get (Resend.build_body payload from_value to_values subject text html)
    "to" = Resend.strings to_values.
Proof.
  rewrite build_body_core by reflexivity.
  now rewrite !set_text_other by reflexivity.
Qed.

Lemma build_body_text payload from_value to_values subject text html :
  text <> "" ->
  PyDict.get (Resend.build_body payload from_value to_values subject text html)
    "text" = JStr text.
Proof.
  intros Ht. rewrite build_body_core by reflexivity.
  rewrite set_text_other by reflexivity. unfold Resend.set_text.
  apply nonempty_true in Ht. rewrite Ht. apply get_set_same.
Qed.

Lemma build_body_html payload from_value to_values subject text html :
  html <> "" ->
  PyDict.get (Resend.build_body payload from_value to_values subject text html)
    "html" = JStr html.
Proof.
  intros Hh. rewrite build_body_core by reflexivity.
  unfold Resend.set_text at 1.
  apply nonempty_true in Hh. rewrite Hh. apply get_set_same.
Qed.

(** X4.  Every request of the email adapter carries a body with a sender that
    is not empty, at least one recipient, every recipient not empty and
    stripped, and a text or an HTML part that is not empty.  The recipients
    are those of [payload.to] when it names any, those of the action
    target otherwise; the sender is [payload.from], or [RESEND_FROM] when
    the payload names none. *)
Theorem email_request_body (w : world) (call : http_call) :
  In call (requests (Resend.run w)) ->
  exists body from_value to_values,
    data (target call) = dumps (JDict body)
    /\ PyDict.get body "from" = JStr from_value
    /\ from_value <> ""
    /\ PyDict.get body "to" = Resend.strings to_values
    /\ to_values <> []
    /\ (forall r, In r to_values -> r <> "" /\ PyStr.strip r = r)
    /\ (exists content,
          content <> ""
          /\ (PyDict.get body "text" = JStr content
              \/ PyDict.get body "html" = JStr content))
    /\ (forall approval payload,
          reads w approval payload ->
          (Resend.normalize_recipients (PyDict.get payload "to") <> [] ->
           to_values = Resend.normalize_recipients (PyDict.get payload "to"))
          /\ (Resend.normalize_recipients (PyDict.get payload "to") = [] ->
              to_values
              = Resend.normalize_recipients
                  (JStr (approval_text approval target_keys)))
          /\ from_value
             = PyStr.or_else (Resend.str_or_empty (PyDict.get payload "from"))
                 (Resend.getenv w "RESEND_FROM")).
Proof.
  run_resend; observe; intros Hin; try contradiction.
  all: destruct Hin as [<-|[]]; built; cbn [target data].
  all: exists body0, from_value0, to_values1.
  all: split; [subst; reflexivity|].
  all: split; [subst body0; apply build_body_from|].
  all: split; [facts; assumption|].
  all: split; [subst body0; apply build_body_to|].
  all: split; [intros E; rewrite E in *; discriminate|].
  all: split;
    [ intros r; subst to_values1 to_values0;
      destruct (_ && _); apply normalize_recipients_member|].
  all: split;
    [ destruct (PyStr.nonempty text1) eqn:Ht;
      [ apply nonempty_true in Ht; exists text1; split; [exact Ht|];
        left; subst body0; now apply build_body_text
      | destruct (PyStr.nonempty html0) eqn:Hh; [|discriminate];
        apply nonempty_true in Hh; exists html0; split; [exact Hh|];
        right; subst body0; now apply build_body_html ]|].
  all: intros approval payload Hreads; open_reads.
  all: unfold approval_text, target_keys.
  all: sync.
  all: split;
    [ intros Hto;
      match type of Hto with
      | ?l <> [] => destruct l; [contradiction|reflexivity]
      end|].
  all: split; [|reflexivity].
  all: intros Hto; rewrite Hto in *; cbn [Resend.is_nil andb] in *.
  all: match goal with
       | |- (if ?c then _ else _) = _ => destruct c; [reflexivity|discriminate]
       end.
Qed.

(** X13.  Every request of the automation adapter carries the body that
    [build_request] made of the summary, the target and the payload, and
    goes to the asynchronous path exactly when [is_async_action] holds of
    the action type and the payload. *)
Theorem automation_request_body (w : world) (approval payload : dict)
    (call : http_call) :
  reads w approval payload ->
  In call (requests (Tinyfish.run w)) ->
  exists body,
    Tinyfish.build_request
      (Tinyfish.trim (Tinyfish.map_lookup (JDict approval)
                        ["action_summary"; "ActionSummary"]))
      (Tinyfish.trim (Tinyfish.map_lookup (JDict approval)
                        ["action_target"; "ActionTarget"]))
      payload = inl body
    /\ data (target call) = dumps (JDict body)
    /\ url (target call)
       = base_url Automation w
         ++ automation_path
              (Tinyfish.is_async_action
                 (Tinyfish.trim (Tinyfish.map_lookup (JDict approval)
                                   ["action_type"; "ActionType"]))
                 payload).
Proof.
  intros Hreads. open_reads.
  run_tinyfish; observe; intros Hin; try contradiction.
  all: destruct Hin as [<-|[]]; built; cbn [target data url].
  all: sync.
  all: eexists; split; [eassumption|]; split; reflexivity.
Qed.

(** X5.  The message of a successful run of the email adapter names the
    recipients that the request carried in [to], and the identifier read
    from the provider's answer. *)
Theorem email_success_reports_recipients (w : world) :
  exit_code (Resend.run w) = 0%Z ->
  exists call status answer body to_values,
    requests (Resend.run w) = [call]
    /\ provider w call = Responds status answer
    /\ data (target call) = dumps (JDict body)
    /\ PyDict.get body "to" = Resend.strings to_values
    /\ out (Resend.run w)
       = dumps (result_object Email
                  (Resend.sent_message to_values
                     (Resend.response_id (received Email answer))))
         ++ PyStr.LF.
Proof.
  run_resend; observe; intros Hexit; try discriminate Hexit.
  built.
  match goal with
  | Hp : provider _ ?c = Responds ?s ?b |- _ =>
      exists c, s, b, body0, to_values1
  end.
  split; [reflexivity|]. split; [assumption|].
  split; [subst; reflexivity|].
  split; [subst body0; apply build_body_to|].
  subst. reflexivity.
Qed.

(** X14.  The message of a successful run of the automation adapter is the
    summary of what was read of the provider's answer, worded for the mode
    that [is_async_action] gave. *)
Theorem automation_success_message (w : world) (approval payload : dict) :
  reads w approval payload ->
  exit_code (Tinyfish.run w) = 0%Z ->
  exists call status answer message,
    requests (Tinyfish.run w) = [call]
    /\ provider w call = Responds status answer
    /\ Tinyfish.summarize_response
         (Tinyfish.is_async_action
            (Tinyfish.trim (Tinyfish.map_lookup (JDict approval)
                              ["action_type"; "ActionType"]))
            payload)
         (received Automation answer) = inl message
    /\ out (Tinyfish.run w)
       = dumps (result_object Automation message) ++ PyStr.LF.
Proof.
  intros Hreads. open_reads.
  run_tinyfish; observe; intros Hexit; try discriminate Hexit.
  match goal with
  | Hp : provider _ ?c = Responds ?s ?b,
    Hm : Tinyfish.summarize_response _ _ = inl ?m |- _ =>
      exists c, s, b, m
  end.
  split; [reflexivity|]. split; [assumption|].
  sync. split; [assumption|reflexivity].
Qed.

(** The call that was issued is the call the provider decided on. *)
Ltac decided Hreq Hprov :=
  observe; try discriminate Hreq; injection Hreq as <-;
  try match goal with
      | H : provider _ _ = Responds _ _ |- _ =>
          rewrite Hprov in H; discriminate H
      end;
  try match goal with
      | H : provider _ _ = RaisesHTTPError _ _ |- _ =>
          rewrite Hprov in H; discriminate H
      end;
  try match goal with
      | H : provider _ _ = RaisesOther _ |- _ =>
          rewrite Hprov in H; discriminate H
      end.

(** X20.  When [urlopen] raises anything but [HTTPError] (no connection, a
    timeout), either adapter reports the text of the exception after its
    prefix, reads nothing and ends with exit code 1. *)
Theorem transport_error_diagnostic (a : adapter) (w : world)
    (call : http_call) (msg : string) :
  requests (run_of a w) = [call] ->
  provider w call = RaisesOther msg ->
  err (run_of a w) = PyStr.strip (request_failed a ++ msg) ++ PyStr.LF
  /\ out (run_of a w) = ""
  /\ exit_code (run_of a w) = 1%Z
  /\ bytes_read (run_of a w) = 0
  /\ uncaught (run_of a w) = None.
Proof.
  destruct a; unfold run_of; [run_resend|run_tinyfish];
    intros Hreq Hprov; decided Hreq Hprov.
  all: match goal with
       | H : provider _ _ = RaisesOther _ |- _ =>
           rewrite Hprov in H; injection H as <-
       end.
  all: repeat split; reflexivity.
Qed.

(** X21.  An HTTP error without a body: the email adapter reports
    [HTTP <code>] as the message, the automation adapter
    [no response body]. *)
Theorem empty_error_body (a : adapter) (w : world) (call : http_call)
    (code : Z) (body : string) :
  requests (run_of a w) = [call] ->
  provider w call = RaisesHTTPError code body ->
  received a body = "" ->
  err (run_of a w)
  = PyStr.strip (request_failed a ++ "status=" ++ PyStr.str_of_Z code
                 ++ " message=" ++ no_body_text a code) ++ PyStr.LF
  /\ out (run_of a w) = ""
  /\ exit_code (run_of a w) = 1%Z
  /\ uncaught (run_of a w) = None.
Proof.
  unfold received, read_limit, chunk.
  destruct a; unfold run_of; [run_resend|run_tinyfish];
    intros Hreq Hprov Hbody; decided Hreq Hprov.
  all: match goal with
       | H : provider _ _ = RaisesHTTPError _ _ |- _ =>
           rewrite Hprov in H; injection H as <- <-
       end.
  all: subst; rewrite Hbody in *.
  all: match goal with
       | H : _ "" = _ |- _ => cbv in H; try discriminate H; injection H as <-
       end.
  all: repeat split; reflexivity.
Qed.

Lemma py_get_raises v k e :
  py_get v k = inr e -> e = AttributeError "object has no attribute 'get'".
Proof. destruct v; intros H; inversion H; reflexivity. Qed.



Lemma parse_error_message_cases raw :
  Tinyfish.parse_error_message raw
  = inr (AttributeError "object has no attribute 'get'")
  \/ Tinyfish.parse_error_message raw = inl "no response body"
  \/ exists v, Tinyfish.parse_error_message raw = inl (Tinyfish.compact v).
Proof.
  unfold Tinyfish.parse_error_message. cbv zeta.
  destruct (PyStr.nonempty _); cbn [negb]; auto.
  destruct (loads _) as [decoded|e] eqn:Hl.
  - destruct (py_get decoded "error") as [v|e] eqn:Hg; cbn [bindE].
    + right. right.
      destruct v; try destruct (PyStr.nonempty _); eauto.
    + left. now rewrite (py_get_raises _ _ _ Hg).
  - destruct (loads_raises _ _ Hl) as [msg ->]. eauto.
Qed.



Lemma parse_error_message_no_lf raw reduced :
  Tinyfish.parse_error_message raw = inl reduced -> no_lf reduced = true.
Proof.
  intros H. destruct (parse_error_message_cases raw) as [Hr|[Hr|[v Hr]]];
    rewrite Hr in H; try discriminate H; injection H as <-.
  - reflexivity.
  - apply compact_no_lf.
Qed.

(** X15.  When the provider answers the automation adapter with an HTTP error,
    or with a response whose status is outside [200,300), and [main]
    returns, the diagnostic is one line: the status and the reduced
    message of what was read of the body. *)
Theorem automation_provider_error_diagnostic (w : world) (call : http_call)
    (code : Z) (body : string) :
  requests (Tinyfish.run w) = [call] ->
  provider w call = RaisesHTTPError code body
  \/ (provider w call = Responds code body /\ ~ (200 <= code < 300)%Z) ->
  uncaught (Tinyfish.run w) = None ->
  is_line (err (Tinyfish.run w)) = true
  /\ exit_code (Tinyfish.run w) = 1%Z
  /\ exists reduced,
       Tinyfish.parse_error_message (received Automation body) = inl reduced
       /\ err (Tinyfish.run w)
          = PyStr.strip ("tinyfish request failed: status="
                         ++ PyStr.str_of_Z code ++ " message=" ++ reduced)
            ++ PyStr.LF.
Proof.
  unfold received, read_limit, chunk.
  run_tinyfish; intros Hreq Hprov Hun; observe;
    try discriminate Hreq; try discriminate Hun; injection Hreq as <-.
  all: match goal with
       | H : provider _ _ = _ |- _ => rewrite H in Hprov
       end.
  all: destruct Hprov as [Hp|[Hp Hstatus]]; try discriminate Hp;
    injection Hp as <- <-.
  all: subst; simpl fst in *; simpl snd in *.
  all: try (status_cases; lia).
  all: match goal with
       | H : Tinyfish.parse_error_message _ = inl ?m |- _ =>
           pose proof (parse_error_message_no_lf _ _ H) as Hline;
           split; [|split; [reflexivity|exists m; split; [exact H|reflexivity]]]
       end.
  all: match goal with
       | |- is_line (_ ++ PyStr.strip ?m ++ _) = true =>
           change (is_line (PyStr.strip m ++ PyStr.LF) = true)
       end.
  all: rewrite is_line_app_lf; apply no_lf_strip.
  all: rewrite !no_lf_app, Hline.
  all: rewrite (no_space_no_lf _ (proj1 (str_of_Z_plain _))); reflexivity.
Qed.

(** X24.  When the timeout setting is not a number, [float] raises before
    [urlopen] is called: no request goes out, and the run ends with exit
    code 1 and nothing on standard output. *)
Theorem malformed_timeout_sends_nothing (a : adapter) (w : world)
    (msg : string) :
  float_error (timeout_setting a w) = Some msg ->
  requests (run_of a w) = []
  /\ bytes_read (run_of a w) = 0
  /\ out (run_of a w) = ""
  /\ exit_code (run_of a w) = 1%Z.
Proof.
  unfold timeout_setting.
  destruct a; unfold run_of; [run_resend|run_tinyfish]; intros Hbad; observe.
  all: try match goal with
           | H : py_float _ = inl _ |- _ =>
               unfold py_float in H; rewrite Hbad in H; discriminate H
           end.
  all: repeat split; reflexivity.
Qed.

(** X6.  When the provider answers the email adapter with a response whose
    status is outside [200,300), the diagnostic is one line that names the
    status; the body is read and not reported. *)
Theorem email_unexpected_status (w : world) (call : http_call) (status : Z)
    (body : string) :
  requests (Resend.run w) = [call] ->
  provider w call = Responds status body ->
  ~ (200 <= status < 300)%Z ->
  err (Resend.run w)
  = "resend request failed: unexpected status " ++ PyStr.str_of_Z status
    ++ PyStr.LF
  /\ is_line (err (Resend.run w)) = true
  /\ out (Resend.run w) = ""
  /\ exit_code (Resend.run w) = 1%Z
  /\ bytes_read (Resend.run w) = String.length body.
Proof.
  assert (Hstrip : PyStr.strip ("resend request failed: unexpected status "
                                ++ PyStr.str_of_Z status)
                   = "resend request failed: unexpected status "
                     ++ PyStr.str_of_Z status).
  { destruct (str_of_Z_plain status) as [Hplain Hne].
    apply (strip_glue "resend request failed: unexpected status" " "
             (PyStr.str_of_Z status)); auto.
    - discriminate.
    - now apply no_space_strip. }
  run_resend; intros Hreq Hprov Hstatus; observe;
    try discriminate Hreq; injection Hreq as <-.
  all: try match goal with
           | H : provider _ _ = RaisesHTTPError _ _ |- _ =>
               rewrite Hprov in H; discriminate H
           end.
  all: try match goal with
           | H : provider _ _ = RaisesOther _ |- _ =>
               rewrite Hprov in H; discriminate H
           end.
  all: match goal with
       | H : provider _ _ = Responds _ _ |- _ =>
           rewrite Hprov in H; injection H as <- <-
       end.
  all: subst; simpl fst in *; simpl snd in *.
  all: try (status_cases; lia).
  match goal with
  | |- ("" ++ ?x ++ ?l)%string = _ /\ _ =>
      change ("" ++ x ++ l)%string with (x ++ l)%string
  end.
  rewrite Hstrip.
  split; [reflexivity|]. split; [|repeat split; reflexivity].
  rewrite is_line_app_lf, no_lf_app.
  now rewrite (no_space_no_lf _ (proj1 (str_of_Z_plain _))).
Qed.

End RunProperties.

(* ===================================================================== *)
(** ** Closed runs on the concrete platform *)
(* ===================================================================== *)

Module Closed.
Import Reference Worlds StrFacts.

(** *** C1 *)



(** *** C2 *)


(** *** C3 *)

Lemma replicate_length n c : String.length (replicate n c) = n.
Proof. induction n; simpl; congruence. Qed.

(** The email adapter reads all of a body that is one byte longer than
    [MAX_BODY_BYTES]. *)
Lemma email_reads_past_limit :
  bytes_read (Resend.run long_answer) = S Tinyfish.MAX_BODY_BYTES
  /\ Tinyfish.MAX_BODY_BYTES < bytes_read (Resend.run long_answer).
Proof.
  assert (Hreq : exists call, requests (Resend.run long_answer) = [call]).
  { eexists. lazy. reflexivity. }
  destruct Hreq as [call Hreq].
  assert (H : bytes_read (Resend.run long_answer) = S Tinyfish.MAX_BODY_BYTES).
  { rewrite (email_reads_whole_body long_answer call 200
               (replicate (S Tinyfish.MAX_BODY_BYTES) "a") Hreq).
    - apply replicate_length.
    - left. reflexivity. }
  split; [exact H|]. rewrite H. apply Nat.lt_succ_diag_r.
Qed.

(** *** C5 *)

(** Scenario A prints the object with a space after each separator; the
    line without those spaces is another text, of the same object. *)
Lemma scenario_A_line_has_spaces :
  out (Resend.run scenario_A) = line_A ++ PyStr.LF
  /\ String.eqb (out (Resend.run scenario_A)) (compact_line_A ++ PyStr.LF) = false
  /\ String.eqb (out (Resend.run scenario_A)) compact_line_A = false
  /\ decode_json line_A = decode_json compact_line_A.
Proof. repeat split; vm_compute; reflexivity. Qed.

(** Scenario A on the concrete platform. *)
Lemma scenario_A_output_witness :
  stdin scenario_A = stdin_A
  /\ json_loads stdin_A = inl document_A
  /\ utf8_decode body_A = body_A
  /\ json_loads body_A = inl (JDict [("id", JStr "em_123")])
  /\ out (Resend.run scenario_A) = line_A ++ PyStr.LF
  /\ exit_code (Resend.run scenario_A) = 0%Z
  /\ err (Resend.run scenario_A) = "".
Proof.
  split; [reflexivity|]. split; [vm_compute; reflexivity|].
  split; [reflexivity|]. split; [vm_compute; reflexivity|].
  refine (scenario_A_output scenario_A
            {| target := {| url := "https://api.resend.com/emails";
                            data := dumps (JDict [("from", JStr "b@x.com");
                                                  ("to", JList [JStr "a@x.com"]);
                                                  ("subject", JStr "Hi");
                                                  ("text", JStr "Hello")]);
                            headers := [("Authorization", "Bearer re_key");
                                        ("Content-Type", "application/json");
                                        ("User-Agent", "curl/8.7.1")];
                            method := "POST" |};
               timeout := "30" |}
            body_A _ _ _ _ _ _).
  - reflexivity.
  - vm_compute. reflexivity.
  - vm_compute. reflexivity.
  - reflexivity.
  - reflexivity.
  - vm_compute. reflexivity.
Defined.

(** *** C6 *)


(** *** C7 *)

(** The goal names the target in capitals: the target is not a substring
    of the goal, and the code appends nothing, whatever the hint.  With no
    source at all the goal is empty and the request is refused. *)
Lemma goal_is_not_as_claimed :
  Tinyfish.resolve_goal "" "http://e.com" shouting = "Visit HTTP://E.COM"
  /\ PyStr.contains "http://e.com" "Visit HTTP://E.COM" = false
  /\ (forall hint,
        claimed_goal hint "" "http://e.com" shouting
        = "Visit HTTP://E.COM" ++ PyStr.LF ++ "Target URL: http://e.com")
  /\ Tinyfish.resolve_goal "" "" [] = ""
  /\ Tinyfish.build_request "" "http://e.com" []
     = inr (ValueError
              "tinyfish action requires payload.goal, payload.task, or summary").
Proof.
  repeat split; try (intros hint); vm_compute; reflexivity.
Qed.

(** *** C8 *)


(** *** C9 *)

(** A payload that is an empty list is present and is not a mapping; the
    script takes an empty mapping in its place, and the email is sent. *)
Lemma list_payload_is_accepted :
  json_loads (stdin list_payload)
  = inl (JDict [("action_approval",
                 JDict [("payload", JList []);
                        ("action_target", JStr "a@x.com");
                        ("action_summary", JStr "Hi")])])
  /\ exit_code (run_of Email list_payload) = 0%Z
  /\ err (run_of Email list_payload) = ""
  /\ out (run_of Email list_payload) = line_A ++ PyStr.LF.
Proof. repeat split; vm_compute; reflexivity. Qed.

(** A payload that is a non-empty string is refused. *)
Lemma truthy_non_mapping_payload_rejected_witness :
  PyStr.strip (stdin text_payload) <> ""
  /\ json_loads (stdin text_payload)
     = inl (JDict [("action_approval", JDict [("payload", JStr "hello")])])
  /\ truthy (JStr "hello") = true
  /\ is_dict (JStr "hello") = false
  /\ exit_code (run_of Email text_payload) = 1%Z
  /\ err (run_of Email text_payload) = payload_error Email ++ PyStr.LF
  /\ out (run_of Email text_payload) = ""
  /\ requests (run_of Email text_payload) = [].
Proof.
  assert (H1 : PyStr.strip (stdin text_payload) <> "") by (vm_compute; discriminate).
  assert (H2 : json_loads (stdin text_payload)
               = inl (JDict [("action_approval", JDict [("payload", JStr "hello")])]))
    by (vm_compute; reflexivity).
  split; [exact H1|]. split; [exact H2|].
  split; [reflexivity|]. split; [reflexivity|].
  refine (truthy_non_mapping_payload_rejected Email text_payload _
            [("payload", JStr "hello")] (JStr "hello") H1 H2 _ _ _ _);
    reflexivity.
Defined.

(** *** C10 *)


(** *** The scenarios of the automation adapter *)

(** Scenario C: the run is queued and the message names the run. *)
Lemma scenario_C_output :
  out (Tinyfish.run scenario_C)
  = PyStr.dq "{'message': 'tinyfish run queued with run_id r1', 'plugin': 'tinyfish_agentic_web'}"
    ++ PyStr.LF
  /\ exit_code (Tinyfish.run scenario_C) = 0%Z
  /\ err (Tinyfish.run scenario_C) = "".
Proof. repeat split; vm_compute; reflexivity. Qed.

(** Scenario D: the diagnostic names the status and the provider's error. *)
Lemma scenario_D_output :
  err (Tinyfish.run scenario_D)
  = "tinyfish request failed: status=500 message=rate limited" ++ PyStr.LF
  /\ exit_code (Tinyfish.run scenario_D) = 1%Z
  /\ out (Tinyfish.run scenario_D) = "".
Proof. repeat split; vm_compute; reflexivity. Qed.

(** An error body that is a JSON list: the error reducer raises, and the
    run ends without a diagnostic of its own. *)
Lemma list_error_raises :
  Tinyfish.parse_error_message "[]"
  = inr (AttributeError "object has no attribute 'get'")
  /\ uncaught (Tinyfish.run list_error)
     = Some (AttributeError "object has no attribute 'get'")
  /\ err (Tinyfish.run list_error) = ""
  /\ exit_code (Tinyfish.run list_error) = 1%Z.
Proof. repeat split; vm_compute; reflexivity. Qed.

End Closed.

(* ===================================================================== *)
(** ** Closed runs for the further properties *)
(* ===================================================================== *)

Module ClosedRuns.
Import Reference Worlds MoreWorlds StrFacts.

(** Two addresses, joined and read back. *)
Lemma recipients_round_trip_witness :
  (forall r, In r ["a@x.com"; "b@x.com"] -> clean_address r)
  /\ Resend.normalize_recipients (JStr (PyStr.join "," ["a@x.com"; "b@x.com"]))
     = ["a@x.com"; "b@x.com"]
  /\ Resend.normalize_recipients (JStr (PyStr.join ", " ["a@x.com"; "b@x.com"]))
     = ["a@x.com"; "b@x.com"].
Proof.
  assert (H : forall r, In r ["a@x.com"; "b@x.com"] -> clean_address r).
  { intros r [<-|[<-|[]]]; repeat split; try discriminate; reflexivity. }
  split; [exact H|]. exact (recipients_round_trip ["a@x.com"; "b@x.com"] H).
Defined.

(** An error object whose message has spaces around it. *)
Lemma parse_message_stripped_witness :
  Resend.parse_message (PyStr.dq "{'message':'  invalid key '}") = inl "invalid key"
  /\ PyStr.strip "invalid key" = "invalid key"
  /\ ("invalid key" = "" -> PyStr.strip (PyStr.dq "{'message':'  invalid key '}") = "").
Proof.
  assert (H : Resend.parse_message (PyStr.dq "{'message':'  invalid key '}")
              = inl "invalid key") by (vm_compute; reflexivity).
  split; [exact H|].
  exact (parse_message_stripped (PyStr.dq "{'message':'  invalid key '}")
           "invalid key" H).
Defined.

(** A payload whose request part has a field of its own, and an action
    target that the goal does not name. *)
Lemma build_request_fields_witness :
  let body := [("browser_profile", JStr "stealth");
               ("goal", JStr ("scrape" ++ PyStr.LF ++ "Target URL: http://e.com"));
               ("url", JStr "http://e.com")] in
  Tinyfish.build_request "" "http://e.com" payload_with_request = inl body
  /\ Tinyfish.map_string (JDict body) "goal" <> ""
  /\ (Tinyfish.map_string (JDict (Tinyfish.request_part payload_with_request)) "goal" = "" ->
      PyDict.find body "goal"
      = Some (JStr (Tinyfish.resolve_goal "" "http://e.com" payload_with_request)))
  /\ PyDict.find body "url"
     = Some (JStr (Tinyfish.resolve_url "http://e.com" payload_with_request
                     (Tinyfish.request_part payload_with_request)))
  /\ Tinyfish.resolve_url "http://e.com" payload_with_request
       (Tinyfish.request_part payload_with_request) <> ""
  /\ (forall k, k <> "goal" -> k <> "url" ->
        PyDict.find body k
        = PyDict.find (Tinyfish.request_part payload_with_request) k).
Proof.
  cbv zeta.
  assert (H : Tinyfish.build_request "" "http://e.com" payload_with_request
              = inl [("browser_profile", JStr "stealth");
                     ("goal", JStr ("scrape" ++ PyStr.LF ++ "Target URL: http://e.com"));
                     ("url", JStr "http://e.com")]) by (vm_compute; reflexivity).
  split; [exact H|].
  exact (build_request_fields "" "http://e.com" payload_with_request _ H).
Defined.

(** An error body that is a JSON list. *)
Lemma parse_error_message_raises_witness :
  PyStr.strip "[]" <> ""
  /\ json_loads (PyStr.strip "[]") = inl (JList [])
  /\ is_dict (JList []) = false
  /\ Tinyfish.parse_error_message "[]"
     = inr (AttributeError "object has no attribute 'get'").
Proof.
  assert (H1 : PyStr.strip "[]" <> "") by (vm_compute; discriminate).
  assert (H2 : json_loads (PyStr.strip "[]") = inl (JList []))
    by (vm_compute; reflexivity).
  split; [exact H1|]. split; [exact H2|]. split; [reflexivity|].
  exact (parse_error_message_raises "[]" (JList []) H1 H2 eq_refl).
Defined.

(** Standard input holds a list. *)
Lemma main_raises_on_non_object_witness :
  PyStr.strip (stdin list_document) <> ""
  /\ json_loads (stdin list_document) = inl (JList [JInt 1])
  /\ is_dict (JList [JInt 1]) = false
  /\ uncaught (run_of Email list_document)
     = Some (AttributeError "object has no attribute 'get'")
  /\ out (run_of Email list_document) = ""
  /\ err (run_of Email list_document) = ""
  /\ requests (run_of Email list_document) = []
  /\ exit_code (run_of Email list_document) = 1%Z.
Proof.
  assert (H1 : PyStr.strip (stdin list_document) <> "") by (vm_compute; discriminate).
  assert (H2 : json_loads (stdin list_document) = inl (JList [JInt 1]))
    by (vm_compute; reflexivity).
  split; [exact H1|]. split; [exact H2|]. split; [reflexivity|].
  exact (main_raises_on_non_object Email list_document (JList [JInt 1]) H1 H2 eq_refl).
Defined.

(** The provider rejects the email with 502. *)
Lemma http_error_fails_witness :
  requests (run_of Email rejected_email) = [call_A]
  /\ provider rejected_email call_A = RaisesHTTPError 502 two_lines
  /\ failed (run_of Email rejected_email).
Proof.
  assert (H1 : requests (run_of Email rejected_email) = [call_A])
    by (vm_compute; reflexivity).
  split; [exact H1|]. split; [reflexivity|].
  exact (http_error_fails Email rejected_email call_A 502 two_lines H1 eq_refl).
Defined.

(** Scenario A succeeds: the provider answered 201. *)
Lemma success_needs_2xx_witness :
  exit_code (run_of Email scenario_A) = 0%Z
  /\ exists status,
       answered scenario_A (run_of Email scenario_A) status
       /\ (200 <= status < 300)%Z.
Proof.
  assert (H : exit_code (run_of Email scenario_A) = 0%Z) by (vm_compute; reflexivity).
  split; [exact H|]. exact (success_needs_2xx Email scenario_A H).
Defined.

(** The request of scenario A. *)
Lemma request_envelope_witness :
  In call_A (requests (run_of Email scenario_A))
  /\ method (target call_A) = "POST"
  /\ headers (target call_A) = request_headers Email scenario_A
  /\ api_key Email scenario_A <> ""
  /\ timeout call_A = timeout_setting Email scenario_A
  /\ PyStr.rstrip_char "/" (base_url Email scenario_A) = base_url Email scenario_A
  /\ exists path,
       url (target call_A) = base_url Email scenario_A ++ path
       /\ path = "/emails".
Proof.
  assert (H : In call_A (requests (run_of Email scenario_A)))
    by (left; vm_compute; reflexivity).
  split; [exact H|]. exact (request_envelope Email scenario_A call_A H).
Defined.

Lemma email_request_body_witness :
  In call_A (requests (Resend.run scenario_A))
  /\ exists body from_value to_values,
       data (target call_A) = dumps (JDict body)
       /\ PyDict.get body "from" = JStr from_value
       /\ from_value <> ""
       /\ PyDict.get body "to" = Resend.strings to_values
       /\ to_values <> []
       /\ (forall r, In r to_values -> r <> "" /\ PyStr.strip r = r)
       /\ (exists content,
             content <> ""
             /\ (PyDict.get body "text" = JStr content
                 \/ PyDict.get body "html" = JStr content))
       /\ (forall approval payload,
             reads scenario_A approval payload ->
             (Resend.normalize_recipients (PyDict.get payload "to") <> [] ->
              to_values = Resend.normalize_recipients (PyDict.get payload "to"))
             /\ (Resend.normalize_recipients (PyDict.get payload "to") = [] ->
                 to_values
                 = Resend.normalize_recipients
                     (JStr (approval_text approval target_keys)))
             /\ from_value
                = PyStr.or_else (Resend.str_or_empty (PyDict.get payload "from"))
                    (Resend.getenv scenario_A "RESEND_FROM")).
Proof.
  assert (H : In call_A (requests (Resend.run scenario_A)))
    by (left; vm_compute; reflexivity).
  split; [exact H|]. exact (email_request_body scenario_A call_A H).
Defined.

Lemma reads_scenario_C :
  reads scenario_C [("payload", JDict payload_C)] payload_C.
Proof.
  split; [vm_compute; discriminate|].
  eexists. split; [vm_compute; reflexivity|]. split; vm_compute; reflexivity.
Defined.

(** The request of scenario C goes to the asynchronous path. *)
Lemma automation_request_body_witness :
  reads scenario_C [("payload", JDict payload_C)] payload_C
  /\ In call_C (requests (Tinyfish.run scenario_C))
  /\ exists body,
       Tinyfish.build_request
         (Tinyfish.trim (Tinyfish.map_lookup (JDict [("payload", JDict payload_C)])
                           ["action_summary"; "ActionSummary"]))
         (Tinyfish.trim (Tinyfish.map_lookup (JDict [("payload", JDict payload_C)])
                           ["action_target"; "ActionTarget"]))
         payload_C = inl body
       /\ data (target call_C) = dumps (JDict body)
       /\ url (target call_C)
          = base_url Automation scenario_C
            ++ automation_path
                 (Tinyfish.is_async_action
                    (Tinyfish.trim
                       (Tinyfish.map_lookup (JDict [("payload", JDict payload_C)])
                          ["action_type"; "ActionType"]))
                    payload_C).
Proof.
  assert (H : In call_C (requests (Tinyfish.run scenario_C)))
    by (left; vm_compute; reflexivity).
  split; [exact reads_scenario_C|]. split; [exact H|].
  exact (automation_request_body scenario_C _ payload_C call_C reads_scenario_C H).
Defined.

Lemma email_success_reports_recipients_witness :
  exit_code (Resend.run scenario_A) = 0%Z
  /\ exists call status answer body to_values,
       requests (Resend.run scenario_A) = [call]
       /\ provider scenario_A call = Responds status answer
       /\ data (target call) = dumps (JDict body)
       /\ PyDict.get body "to" = Resend.strings to_values
       /\ out (Resend.run scenario_A)
          = dumps (result_object Email
                     (Resend.sent_message to_values
                        (Resend.response_id (received Email answer))))
            ++ PyStr.LF.
Proof.
  assert (H : exit_code (Resend.run scenario_A) = 0%Z) by (vm_compute; reflexivity).
  split; [exact H|]. exact (email_success_reports_recipients scenario_A H).
Defined.

Lemma automation_success_message_witness :
  reads scenario_C [("payload", JDict payload_C)] payload_C
  /\ exit_code (Tinyfish.run scenario_C) = 0%Z
  /\ exists call status answer message,
       requests (Tinyfish.run scenario_C) = [call]
       /\ provider scenario_C call = Responds status answer
       /\ Tinyfish.summarize_response
            (Tinyfish.is_async_action
               (Tinyfish.trim
                  (Tinyfish.map_lookup (JDict [("payload", JDict payload_C)])
                     ["action_type"; "ActionType"]))
               payload_C)
            (received Automation answer) = inl message
       /\ out (Tinyfish.run scenario_C)
          = dumps (result_object Automation message) ++ PyStr.LF.
Proof.
  assert (H : exit_code (Tinyfish.run scenario_C) = 0%Z) by (vm_compute; reflexivity).
  split; [exact reads_scenario_C|]. split; [exact H|].
  exact (automation_success_message scenario_C _ payload_C reads_scenario_C H).
Defined.

(** The provider cannot be reached. *)
Lemma transport_error_diagnostic_witness :
  requests (run_of Automation unreachable) = [call_C]
  /\ provider unreachable call_C = RaisesOther "<urlopen error timed out>"
  /\ err (run_of Automation unreachable)
     = PyStr.strip (request_failed Automation ++ "<urlopen error timed out>")
       ++ PyStr.LF
  /\ out (run_of Automation unreachable) = ""
  /\ exit_code (run_of Automation unreachable) = 1%Z
  /\ bytes_read (run_of Automation unreachable) = 0
  /\ uncaught (run_of Automation unreachable) = None.
Proof.
  assert (H : requests (run_of Automation unreachable) = [call_C])
    by (vm_compute; reflexivity).
  split; [exact H|]. split; [reflexivity|].
  exact (transport_error_diagnostic Automation unreachable call_C _ H eq_refl).
Defined.

(** The provider answers the email with 503 and no body. *)
Lemma empty_error_body_witness :
  requests (run_of Email empty_error) = [call_A]
  /\ provider empty_error call_A = RaisesHTTPError 503 ""
  /\ received Email "" = ""
  /\ err (run_of Email empty_error)
     = PyStr.strip (request_failed Email ++ "status=" ++ PyStr.str_of_Z 503
                    ++ " message=" ++ no_body_text Email 503) ++ PyStr.LF
  /\ out (run_of Email empty_error) = ""
  /\ exit_code (run_of Email empty_error) = 1%Z
  /\ uncaught (run_of Email empty_error) = None.
Proof.
  assert (H : requests (run_of Email empty_error) = [call_A])
    by (vm_compute; reflexivity).
  split; [exact H|]. split; [reflexivity|]. split; [reflexivity|].
  exact (empty_error_body Email empty_error call_A 503 "" H eq_refl eq_refl).
Defined.


(** The automation provider answers 404 with a page of two lines: the
    diagnostic is one line. *)
Lemma automation_provider_error_diagnostic_witness :
  requests (Tinyfish.run not_found) = [call_C]
  /\ (provider not_found call_C = RaisesHTTPError 404 two_lines
      \/ (provider not_found call_C = Responds 404 two_lines
          /\ ~ (200 <= 404 < 300)%Z))
  /\ uncaught (Tinyfish.run not_found) = None
  /\ is_line (err (Tinyfish.run not_found)) = true
  /\ exit_code (Tinyfish.run not_found) = 1%Z
  /\ exists reduced,
       Tinyfish.parse_error_message (received Automation two_lines) = inl reduced
       /\ err (Tinyfish.run not_found)
          = PyStr.strip ("tinyfish request failed: status="
                         ++ PyStr.str_of_Z 404 ++ " message=" ++ reduced)
            ++ PyStr.LF.
Proof.
  assert (H1 : requests (Tinyfish.run not_found) = [call_C])
    by (vm_compute; reflexivity).
  assert (H2 : provider not_found call_C = RaisesHTTPError 404 two_lines
               \/ (provider not_found call_C = Responds 404 two_lines
                   /\ ~ (200 <= 404 < 300)%Z))
    by (right; split; [reflexivity|lia]).
  assert (H3 : uncaught (Tinyfish.run not_found) = None) by (vm_compute; reflexivity).
  split; [exact H1|]. split; [exact H2|]. split; [exact H3|].
  exact (automation_provider_error_diagnostic not_found call_C 404 two_lines H1 H2 H3).
Defined.

(** The timeout setting is the word [soon]. *)
Lemma malformed_timeout_sends_nothing_witness :
  float_error (timeout_setting Email bad_timeout)
  = Some "could not convert string to float"
  /\ requests (run_of Email bad_timeout) = []
  /\ bytes_read (run_of Email bad_timeout) = 0
  /\ out (run_of Email bad_timeout) = ""
  /\ exit_code (run_of Email bad_timeout) = 1%Z.
Proof.
  assert (H : float_error (timeout_setting Email bad_timeout)
              = Some "could not convert string to float")
    by (vm_compute; reflexivity).
  split; [exact H|]. exact (malformed_timeout_sends_nothing Email bad_timeout _ H).
Defined.

(** The provider answers the email with 429. *)
Lemma email_unexpected_status_witness :
  requests (Resend.run refused_email) = [call_A]
  /\ provider refused_email call_A = Responds 429 "slow down"
  /\ ~ (200 <= 429 < 300)%Z
  /\ err (Resend.run refused_email)
     = "resend request failed: unexpected status " ++ PyStr.str_of_Z 429
       ++ PyStr.LF
  /\ is_line (err (Resend.run refused_email)) = true
  /\ out (Resend.run refused_email) = ""
  /\ exit_code (Resend.run refused_email) = 1%Z
  /\ bytes_read (Resend.run refused_email) = String.length "slow down".
Proof.
  assert (H1 : requests (Resend.run refused_email) = [call_A])
    by (vm_compute; reflexivity).
  assert (H3 : ~ (200 <= 429 < 300)%Z) by lia.
  split; [exact H1|]. split; [reflexivity|]. split; [exact H3|].
  exact (email_unexpected_status refused_email call_A 429 "slow down" H1 eq_refl H3).
Defined.

End ClosedRuns.
